(** * SFDCHTI: the Salesforce REST client of [src/client.ts]

    A shallow embedding of the authentication-and-request pipeline of
    [SalesforceClient]: the token cache, [authenticate], the retrying
    [request], the paginating [query] and [createRecord], together with the
    response schemas of [src/types.ts] and the defaults of [src/config.ts].

    The client is asynchronous JavaScript running on a single event loop.
    One logical operation is modelled as a state transformer over a
    [Machine]: the client object (with its mutable [tokenCache] slot), the
    wall clock read by [Date.now()], the replies the network is going to
    give to the successive [fetch] calls, and the trace of the calls and
    timer waits performed so far.  A thrown JavaScript error is the
    [Throw] outcome.  Numbers are integers ([Z]); floating point and the
    interleaving of several concurrent operations are not modelled. *)

From Stdlib Require Import ZArith List String Ascii Bool Lia DecimalString.
Import ListNotations.
Open Scope string_scope.
Open Scope Z_scope.

Set Implicit Arguments.
Set Warnings "-register-all".

(** ** JSON values *)

Inductive Json : Type :=
| JNull
| JBool (b : bool)
| JNum (n : Z)
| JStr (s : string)
| JArr (items : list Json)
| JObj (props : list (string * Json)).

(** Property access [o\[k\]]: [None] is JavaScript's [undefined]. *)
Fixpoint assoc_get {A : Type} (k : string) (kvs : list (string * A)) : option A :=
  match kvs with
  | [] => None
  | (k', v) :: rest => if String.eqb k k' then Some v else assoc_get k rest
  end.

Definition get (k : string) (o : Json) : option Json :=
  match o with
  | JObj props => assoc_get k props
  | _ => None
  end.

(** JavaScript truthiness of a possibly undefined value. *)
Definition truthy (v : option Json) : bool :=
  match v with
  | None => false
  | Some JNull => false
  | Some (JBool b) => b
  | Some (JNum n) => negb (n =? 0)
  | Some (JStr s) => negb (String.eqb s "")
  | Some (JArr _) => true
  | Some (JObj _) => true
  end.

Definition as_array (v : option Json) : list Json :=
  match v with
  | Some (JArr items) => items
  | _ => []
  end.

Definition props_of (o : Json) : list (string * Json) :=
  match o with
  | JObj props => props
  | _ => []
  end.

Definition as_string (v : option Json) : string :=
  match v with
  | Some (JStr s) => s
  | _ => ""
  end.

(** ** The zod schemas of [types.ts]

    Only the combinators the response schemas use.  [parse] returns the
    validated value, or [None] where zod throws a [ZodError].  An object
    schema is in zod's default mode: keys outside the shape are stripped,
    keys of the shape are kept. *)

Inductive ZodType : Type :=
| z_string
| z_number
| z_boolean
| z_any
| z_array (item : ZodType)
| z_record (value : ZodType)
| z_optional (inner : ZodType)
| z_object (shape : list (string * ZodType)).

Fixpoint traverse {A B : Type} (f : A -> option B) (l : list A) : option (list B) :=
  match l with
  | [] => Some []
  | x :: rest =>
      match f x, traverse f rest with
      | Some y, Some ys => Some (y :: ys)
      | _, _ => None
      end
  end.

(** Whether a schema accepts [undefined], that is a missing key. *)
Definition accepts_undefined (t : ZodType) : bool :=
  match t with
  | z_optional _ | z_any => true
  | _ => false
  end.

Fixpoint parse (t : ZodType) (j : Json) {struct t} : option Json :=
  match t with
  | z_string => match j with JStr _ => Some j | _ => None end
  | z_number => match j with JNum _ => Some j | _ => None end
  | z_boolean => match j with JBool _ => Some j | _ => None end
  | z_any => Some j
  | z_optional inner => parse inner j
  | z_array item =>
      match j with
      | JArr items => option_map JArr (traverse (parse item) items)
      | _ => None
      end
  | z_record value =>
      match j with
      | JObj props =>
          option_map JObj
            (traverse (fun kv => option_map (pair (fst kv)) (parse value (snd kv))) props)
      | _ => None
      end
  | z_object shape =>
      match j with
      | JObj props =>
          option_map JObj
            ((fix fields (sh : list (string * ZodType)) : option (list (string * Json)) :=
                match sh with
                | [] => Some []
                | (k, ft) :: sh' =>
                    match assoc_get k props with
                    | Some v =>
                        match parse ft v, fields sh' with
                        | Some v', Some rest => Some ((k, v') :: rest)
                        | _, _ => None
                        end
                    | None => if accepts_undefined ft then fields sh' else None
                    end
                end) shape)
      | _ => None
      end
  end.

Definition SalesforceTokenResponseSchema : ZodType :=
  z_object [ ("access_token", z_string);
             ("instance_url", z_string);
             ("id", z_string);
             ("token_type", z_string);
             ("issued_at", z_string);
             ("signature", z_string) ].

Definition SalesforceQueryResponseSchema : ZodType :=
  z_object [ ("totalSize", z_number);
             ("done", z_boolean);
             ("records", z_array (z_record z_any));
             ("nextRecordsUrl", z_optional z_string) ].

Definition SalesforceCreateResponseSchema : ZodType :=
  z_object [ ("id", z_string);
             ("success", z_boolean);
             ("errors", z_array z_any) ].

Definition SalesforceErrorSchema : ZodType :=
  z_array (z_object [ ("message", z_string);
                      ("errorCode", z_string);
                      ("fields", z_optional (z_array z_string)) ]).

(** [z.object(shape).passthrough()]: the keys of the shape are validated as
    for an object schema, the other keys of the value follow as they are. *)
Definition in_shape (shape : list (string * ZodType)) (k : string) : bool :=
  match assoc_get k shape with Some _ => true | None => false end.

Definition parse_passthrough (shape : list (string * ZodType)) (j : Json) : option Json :=
  match j with
  | JObj props =>
      match parse (z_object shape) j with
      | Some validated =>
          Some (JObj (props_of validated
                      ++ filter (fun kv => negb (in_shape shape (fst kv))) props))
      | None => None
      end
  | _ => None
  end.

(** [Schema.array().parse(records)] for a passthrough object schema. *)
Definition parse_array (shape : list (string * ZodType)) (records : list Json)
    : option (list Json) :=
  traverse (parse_passthrough shape) records.

(** The shapes of the Salesforce object schemas, each used with
    [.passthrough()]. *)
Definition AccountSchema : list (string * ZodType) :=
  [ ("Id", z_string);
    ("Name", z_optional z_string);
    ("Industry", z_optional z_string);
    ("Type", z_optional z_string);
    ("Website", z_optional z_string);
    ("Phone", z_optional z_string);
    ("BillingStreet", z_optional z_string);
    ("BillingCity", z_optional z_string);
    ("BillingState", z_optional z_string);
    ("BillingPostalCode", z_optional z_string);
    ("Description", z_optional z_string);
    ("CreatedDate", z_optional z_string);
    ("LastModifiedDate", z_optional z_string) ].

Definition ContactSchema : list (string * ZodType) :=
  [ ("Id", z_string);
    ("FirstName", z_optional z_string);
    ("LastName", z_optional z_string);
    ("Email", z_optional z_string);
    ("Phone", z_optional z_string);
    ("Title", z_optional z_string);
    ("AccountId", z_optional z_string);
    ("MailingStreet", z_optional z_string);
    ("MailingCity", z_optional z_string);
    ("MailingState", z_optional z_string);
    ("MailingPostalCode", z_optional z_string);
    ("CreatedDate", z_optional z_string);
    ("LastModifiedDate", z_optional z_string) ].

Definition OpportunitySchema : list (string * ZodType) :=
  [ ("Id", z_string);
    ("Name", z_optional z_string);
    ("AccountId", z_optional z_string);
    ("Amount", z_optional z_number);
    ("StageName", z_optional z_string);
    ("CloseDate", z_optional z_string);
    ("Probability", z_optional z_number);
    ("Type", z_optional z_string);
    ("Description", z_optional z_string);
    ("CreatedDate", z_optional z_string);
    ("LastModifiedDate", z_optional z_string) ].

Definition TaskSchema : list (string * ZodType) :=
  [ ("Id", z_string);
    ("Subject", z_optional z_string);
    ("Status", z_optional z_string);
    ("Priority", z_optional z_string);
    ("WhoId", z_optional z_string);
    ("WhatId", z_optional z_string);
    ("ActivityDate", z_optional z_string);
    ("Description", z_optional z_string);
    ("CreatedDate", z_optional z_string);
    ("LastModifiedDate", z_optional z_string) ].

(** ** Errors, responses and the outside world *)

(** A thrown JavaScript error: its [name] and its [message].  Every error the
    client itself raises is a plain [new Error(message)]. *)
Record JsError : Type := mkError { name : string; message : string }.

Definition Error (msg : string) : JsError := mkError "Error" msg.
(** What [fetch] rejects with when its [AbortSignal] fires. *)
Definition AbortError : JsError := mkError "AbortError" "This operation was aborted".
(** Library errors; only their names matter to the client. *)
Definition TypeError (msg : string) : JsError := mkError "TypeError" msg.
Definition SyntaxError : JsError := mkError "SyntaxError" "Unexpected token in JSON".
Definition ZodError : JsError := mkError "ZodError" "Invalid input".

Record Response : Type := mkResponse { status : Z; text : string }.

(** [response.ok] *)
Definition ok (r : Response) : bool := (200 <=? status r) && (status r <=? 299).

(** The second argument of [fetch]. *)
Record RequestInit : Type := mkInit {
  method : option string;
  headers : list (string * string);
  body : option string
}.

Definition no_options : RequestInit := mkInit None [] None.

(** Object spread [{...base, ...over}] of two header objects: a key of
    [base] keeps its place and takes the value [over] gives it, the other
    keys of [over] follow. *)
Definition spread (base over : list (string * string)) : list (string * string) :=
  map (fun kv => match assoc_get (fst kv) over with
                 | Some v => (fst kv, v)
                 | None => kv
                 end) base
  ++ filter (fun kv => match assoc_get (fst kv) base with
                       | Some _ => false
                       | None => true
                       end) over.

(** What the network does with one [fetch]: after [latency] milliseconds it
    either delivers a response or rejects. *)
Inductive Reply : Type :=
| Responds (latency : Z) (r : Response)
| Rejects (latency : Z) (e : JsError).

Definition latency_of (r : Reply) : Z :=
  match r with Responds l _ => l | Rejects l _ => l end.

(** The two places of [client.ts] that call [fetch]. *)
Inductive CallSite : Type := TokenEndpoint | ResourceEndpoint.

Inductive Event : Type :=
| Fetch (site : CallSite) (url : string) (init : RequestInit)
| Timer (ms : Z).

(** ** Configuration ([types.ts], [config.ts]) *)

Record SalesforceConfig : Type := mkConfig {
  clientId : string;
  username : string;
  privateKey : string;
  cfg_instanceUrl : option string;
  loginUrl : option string;
  apiVersion : option string
}.

Record SalesforceClientOptions : Type := mkOptions {
  opt_config : SalesforceConfig;
  opt_tokenCacheTtlMs : option Z;
  opt_requestTimeoutMs : option Z;
  opt_maxRetries : option Z
}.

Definition HUBZONE_INSTANCE_URL : string :=
  "https://hubzonetechnologyinitiative.my.salesforce.com".
Definition SALESFORCE_LOGIN_URL : string := "https://login.salesforce.com".
Definition DEFAULT_API_VERSION : string := "v61.0".

(** ** The client object and the machine it runs on *)

Record TokenCache : Type := mkTokenCache {
  accessToken : string;
  instanceUrl : string;
  expiresAt : Z
}.

Record SalesforceClient : Type := mkClient {
  config : SalesforceConfig;
  tokenCache : option TokenCache;
  tokenCacheTtlMs : Z;
  requestTimeoutMs : Z;
  maxRetries : Z
}.

(** [a ?? b] *)
Definition nullish {A : Type} (a : option A) (b : A) : A :=
  match a with Some x => x | None => b end.

(** A key the options leave out keeps the default written before the spread. *)
Definition spread_default (default : string) (given : option string) : option string :=
  match given with Some s => Some s | None => Some default end.

Definition constructor (options : SalesforceClientOptions) : SalesforceClient :=
  let c := opt_config options in
  {| config :=
       {| clientId := clientId c;
          username := username c;
          privateKey := privateKey c;
          cfg_instanceUrl := spread_default HUBZONE_INSTANCE_URL (cfg_instanceUrl c);
          loginUrl := spread_default SALESFORCE_LOGIN_URL (loginUrl c);
          apiVersion := spread_default DEFAULT_API_VERSION (apiVersion c) |};
     tokenCache := None;
     tokenCacheTtlMs := nullish (opt_tokenCacheTtlMs options) (55 * 60 * 1000);
     requestTimeoutMs := nullish (opt_requestTimeoutMs options) 30000;
     maxRetries := nullish (opt_maxRetries options) 3 |}.

(** [configFromEnv] of [config.ts].  [env] is [process.env] and
    [readFileSync] is [fs.readFileSync(path, 'utf8')]. *)
Section Environment.

Variable env : string -> option string.
Variable readFileSync : string -> JsError + string.

(** The value of an environment variable when it is truthy: set and not
    empty. *)
Definition nonempty (x : option string) : option string :=
  match x with
  | Some value => if String.eqb value "" then None else Some value
  | None => None
  end.

Definition configFromEnv : JsError + SalesforceConfig :=
  let clientId := env "SF_CLIENT_ID" in
  let username := env "SF_USERNAME" in
  let privateKey := env "SF_PRIVATE_KEY" in
  let privateKeyPath := env "SF_PRIVATE_KEY_PATH" in
  let instanceUrl :=
    match nonempty (env "SF_INSTANCE_URL") with
    | Some url => url
    | None => HUBZONE_INSTANCE_URL
    end in
  match nonempty clientId with
  | None => inl (Error "SF_CLIENT_ID environment variable is required")
  | Some clientId =>
      match nonempty username with
      | None => inl (Error "SF_USERNAME environment variable is required")
      | Some username =>
          let key :=
            match nonempty privateKey with
            | Some privateKey => inr privateKey
            | None =>
                match nonempty privateKeyPath with
                | Some privateKeyPath => readFileSync privateKeyPath
                | None =>
                    inl (Error "Either SF_PRIVATE_KEY or SF_PRIVATE_KEY_PATH is required")
                end
            end in
          match key with
          | inl e => inl e
          | inr key =>
              inr {| clientId := clientId;
                     username := username;
                     privateKey := key;
                     cfg_instanceUrl := Some instanceUrl;
                     loginUrl := Some SALESFORCE_LOGIN_URL;
                     apiVersion := Some DEFAULT_API_VERSION |}
          end
      end
  end.

End Environment.

Record Machine : Type := mkMachine {
  this : SalesforceClient;
  clock : Z;
  network : list Reply;
  trace : list Event
}.

Definition with_tokenCache (tc : option TokenCache) (m : Machine) : Machine :=
  let c := this m in
  {| this := {| config := config c;
                tokenCache := tc;
                tokenCacheTtlMs := tokenCacheTtlMs c;
                requestTimeoutMs := requestTimeoutMs c;
                maxRetries := maxRetries c |};
     clock := clock m;
     network := network m;
     trace := trace m |}.

Definition record_event (e : Event) (m : Machine) : Machine :=
  {| this := this m; clock := clock m; network := network m; trace := trace m ++ [e] |}.

Definition elapse (ms : Z) (m : Machine) : Machine :=
  {| this := this m; clock := clock m + Z.max 0 ms; network := network m; trace := trace m |}.

Definition consume_reply (m : Machine) : Machine :=
  {| this := this m; clock := clock m; network := tl (network m); trace := trace m |}.

(** ** The monad of one asynchronous operation *)

Inductive Outcome (A : Type) : Type :=
| Return (a : A)
| Throw (e : JsError).
Arguments Throw {A} e.

Definition M (A : Type) : Type := Machine -> Outcome A * Machine.

Definition ret {A : Type} (a : A) : M A := fun m => (Return a, m).
Definition throw {A : Type} (e : JsError) : M A := fun m => (Throw e, m).
Definition bind {A B : Type} (c : M A) (k : A -> M B) : M B :=
  fun m => match c m with
           | (Return a, m') => k a m'
           | (Throw e, m') => (Throw e, m')
           end.

Notation "x <- c ;; k" := (bind c (fun x => k))
  (at level 61, c at next level, right associativity).
Notation "c ;;; k" := (bind c (fun _ => k))
  (at level 61, k at level 61, right associativity).

(** [try { c } catch (e) { ... }] seen from the handler: the rejection is
    handed over as a value. *)
Definition attempt {A : Type} (c : M A) : M (JsError + A) :=
  fun m => match c m with
           | (Return a, m') => (Return (inr a), m')
           | (Throw e, m') => (Return (inl e), m')
           end.

Definition read_this : M SalesforceClient := fun m => (Return (this m), m).
Definition Date_now : M Z := fun m => (Return (clock m), m).

(** [await new Promise((resolve) => setTimeout(resolve, delay))] *)
Definition sleep (delay : Z) : M unit :=
  fun m => (Return tt, elapse delay (record_event (Timer delay) m)).

(** [fetch(url, init)], with the delay of the abort timer when a signal is
    attached.  The call takes the next reply of the network; with a signal
    it is aborted unless the reply comes before the timer fires.  When the
    network has nothing more to say the host is unreachable. *)
Definition fetch (site : CallSite) (url : string) (init : RequestInit)
    (abort_after : option Z) : M Response :=
  fun m =>
    let m1 := record_event (Fetch site url init) m in
    match network m1 with
    | [] => (Throw (TypeError "fetch failed"), m1)
    | reply :: _ =>
        let deliver :=
          match reply with
          | Responds l r => (Return r, elapse l (consume_reply m1))
          | Rejects l e => (Throw e, elapse l (consume_reply m1))
          end in
        match abort_after with
        | None => deliver
        | Some t =>
            if latency_of reply <? t then deliver
            else (Throw AbortError, elapse t (consume_reply m1))
        end
    end.

(** [`${x}`] of a possibly undefined string and of a number. *)
Definition template (s : option string) : string :=
  match s with Some x => x | None => "undefined" end.

Definition template_number (n : Z) : string := NilZero.string_of_int (Z.to_int n).

(** [s.replace(pattern, replacement)] with a string pattern: the first
    occurrence only. *)
Fixpoint replace (pattern replacement s : string) : string :=
  if String.prefix pattern s
  then replacement ++ String.substring (String.length pattern)
                        (String.length s - String.length pattern) s
  else match s with
       | EmptyString => EmptyString
       | String c rest => String c (replace pattern replacement rest)
       end.

(** ** The client ([client.ts]) *)

(** The claim set signed by [generateJwtAssertion]. *)
Record JwtPayload : Type := mkPayload {
  iss : string;
  sub : string;
  aud : option string;
  exp : Z
}.

Section Client.

(** Functions of the JavaScript runtime and of the [jsonwebtoken] package.
    [JSON_parse] is [None] where [JSON.parse] throws a [SyntaxError];
    [jwt_sign] is [jwt.sign(payload, key, { algorithm: 'RS256' })]. *)
Variable JSON_parse : string -> option Json.
Variable JSON_stringify : Json -> string.
Variable encodeURIComponent : string -> string.
Variable URLSearchParams_toString : list (string * string) -> string.
Variable jwt_sign : JwtPayload -> string -> JsError + string.

(** [await response.json()] *)
Definition response_json (response : Response) : M Json :=
  match JSON_parse (text response) with
  | Some j => ret j
  | None => throw SyntaxError
  end.

(** [Schema.parse(value)] *)
Definition zod_parse (schema : ZodType) (value : Json) : M Json :=
  match parse schema value with
  | Some v => ret v
  | None => throw ZodError
  end.

(** *** Authentication *)

Definition generateJwtAssertion : M string :=
  self <- read_this ;;
  ms <- Date_now ;;
  let now := ms / 1000 in
  let payload :=
    {| iss := clientId (config self);
       sub := username (config self);
       aud := loginUrl (config self);
       exp := now + 300 |} in
  match jwt_sign payload (privateKey (config self)) with
  | inr assertion => ret assertion
  | inl e => throw e
  end.

(** [this.tokenCache = value] *)
Definition assign_tokenCache (value : option TokenCache) : M unit :=
  fun m => (Return tt, with_tokenCache value m).

(** The condition of the cache check,
    [this.tokenCache && Date.now() < this.tokenCache.expiresAt]:
    the cached token when the condition holds. *)
Definition fresh_token (cache : option TokenCache) (now : Z) : option TokenCache :=
  match cache with
  | Some cached => if now <? expiresAt cached then Some cached else None
  | None => None
  end.

Definition authenticate : M (string * string) :=
  self <- read_this ;;
  now <- Date_now ;;
  match fresh_token (tokenCache self) now with
  | Some cached => ret (accessToken cached, instanceUrl cached)
  | None =>
      assertion <- generateJwtAssertion ;;
      let tokenUrl := template (loginUrl (config self)) ++ "/services/oauth2/token" in
      let params :=
        [ ("grant_type", "urn:ietf:params:oauth:grant-type:jwt-bearer");
          ("assertion", assertion) ] in
      response <- fetch TokenEndpoint tokenUrl
                    {| method := Some "POST";
                       headers := [("Content-Type", "application/x-www-form-urlencoded")];
                       body := Some (URLSearchParams_toString params) |}
                    None ;;
      if negb (ok response)
      then throw (Error ("Salesforce authentication failed: " ++ text response))
      else
        json <- response_json response ;;
        data <- zod_parse SalesforceTokenResponseSchema json ;;
        now <- Date_now ;;
        assign_tokenCache
          (Some {| accessToken := as_string (get "access_token" data);
                   instanceUrl := as_string (get "instance_url" data);
                   expiresAt := now + tokenCacheTtlMs self |}) ;;;
        ret (as_string (get "access_token" data), as_string (get "instance_url" data))
  end.

(** Clear the token cache (forces re-authentication on next request). *)
Definition clearTokenCache : M unit := assign_tokenCache None.

(** *** Generic request *)

(** [Math.pow(2, this.maxRetries - retries) * 1000].  [request] is private
    and every caller leaves [retries] at its default [this.maxRetries], so
    the exponent is a natural number whenever the delay is computed. *)
Definition backoff_delay (maxRetries retries : Z) : Z :=
  2 ^ (maxRetries - retries) * 1000.

(** The message of the error raised for a response that is not [ok]. *)
Definition api_error_message (response : Response) : string :=
  let errorText := text response in
  let errorMessage :=
    "Salesforce API Error (" ++ template_number (status response) ++ "): " ++ errorText in
  match JSON_parse errorText with
  | Some parsed =>
      match parse SalesforceErrorSchema parsed with
      | Some errors =>
          "Salesforce API Error: "
          ++ String.concat ", " (map (fun e => as_string (get "message" e))
                                     (as_array (Some errors)))
      | None => errorMessage
      end
  | None => errorMessage
  end.

(** The body of [request]; [again] stands for the recursive call
    [this.request<T>(endpoint, options, retries - 1)], whose promise is
    returned without being awaited and so never reaches the [catch]. *)
Definition request_body (again : M Json)
    (endpoint : string) (options : RequestInit) (retries : Z) : M Json :=
  token <- authenticate ;;
  let (accessToken, instanceUrl) := token in
  self <- read_this ;;
  let url :=
    instanceUrl ++ "/services/data/" ++ template (apiVersion (config self)) ++ endpoint in
  let catch (error : JsError) : M Json :=
    if String.eqb (name error) "AbortError" then
      if retries >? 0 then
        let delay := backoff_delay (maxRetries self) retries in
        sleep delay ;;; again
      else throw (Error "Salesforce request timeout after retries")
    else throw error in
  settled <- attempt
    (fetch ResourceEndpoint url
       {| method := method options;
          headers := spread [ ("Authorization", "Bearer " ++ accessToken);
                              ("Content-Type", "application/json") ]
                            (headers options);
          body := body options |}
       (Some (requestTimeoutMs self))) ;;
  match settled with
  | inl error => catch error
  | inr response =>
      if status response =? 401 then
        clearTokenCache ;;;
        if retries >? 0 then again
        else catch (Error "Salesforce authentication failed after retries")
      else if (status response =? 429) && (retries >? 0) then
        let delay := backoff_delay (maxRetries self) retries in
        sleep delay ;;; again
      else if (status response >=? 500) && (retries >? 0) then
        let delay := backoff_delay (maxRetries self) retries in
        sleep delay ;;; again
      else if negb (ok response) then
        catch (Error (api_error_message response))
      else if status response =? 204 then
        ret (JObj [])
      else response_json response
  end.

(** The recursion of [request] goes down on the retry budget: a call with
    budget [retries] nests at most [Z.to_nat retries] further calls. *)
Fixpoint request_rec (depth : nat)
    (endpoint : string) (options : RequestInit) (retries : Z) : M Json :=
  match depth with
  | O => request_body (throw (Error "unreachable")) endpoint options retries
  | S depth' =>
      request_body (request_rec depth' endpoint options (retries - 1))
                   endpoint options retries
  end.

Definition request (endpoint : string) (options : RequestInit) (retries : Z) : M Json :=
  request_rec (Z.to_nat retries) endpoint options retries.

(** [this.request(endpoint, options)] with [retries = this.maxRetries]. *)
Definition request_default (endpoint : string) (options : RequestInit) : M Json :=
  self <- read_this ;;
  request endpoint options (maxRetries self).

(** *** SOQL query *)

(** One turn of the [while (nextUrl)] loop of [query] cannot be bounded
    in advance, since the server decides when the result is complete:
    the loop is run for at most [turns] iterations and yields [None]
    when that is not enough. *)
Fixpoint query_loop (turns : nat) (records : list Json) (nextUrl : string)
    (m : Machine) : option (Outcome (list Json) * Machine) :=
  if String.eqb nextUrl "" then Some (Return records, m)
  else
    match turns with
    | O => None
    | S turns' =>
        let prefix := "/services/data/" ++ template (apiVersion (config (this m))) in
        match request_default (replace prefix "" nextUrl) no_options m with
        | (Throw e, m1) => Some (Throw e, m1)
        | (Return nextResponse, m1) =>
            match parse SalesforceQueryResponseSchema nextResponse with
            | None => Some (Throw ZodError, m1)
            | Some nextResult =>
                let records := (records ++ as_array (get "records" nextResult))%list in
                let nextUrl :=
                  if truthy (get "done" nextResult) then ""
                  else if truthy (get "nextRecordsUrl" nextResult)
                       then as_string (get "nextRecordsUrl" nextResult)
                       else "" in
                query_loop turns' records nextUrl m1
            end
        end
    end.

(** Execute a SOQL query with automatic pagination. *)
Definition query (turns : nat) (soql : string) (fetchAll : bool)
    (m : Machine) : option (Outcome (list Json) * Machine) :=
  let encodedQuery := encodeURIComponent soql in
  match request_default ("/query/?q=" ++ encodedQuery) no_options m with
  | (Throw e, m1) => Some (Throw e, m1)
  | (Return response, m1) =>
      match parse SalesforceQueryResponseSchema response with
      | None => Some (Throw ZodError, m1)
      | Some result =>
          let records := as_array (get "records" result) in
          if fetchAll && negb (truthy (get "done" result))
             && truthy (get "nextRecordsUrl" result)
          then query_loop turns records (as_string (get "nextRecordsUrl" result)) m1
          else Some (Return records, m1)
      end
  end.

(** *** CRUD operations *)

(** Create a new record. *)
Definition createRecord (sobject : string) (data : Json) : M Json :=
  response <- request_default ("/sobjects/" ++ sobject ++ "/")
                {| method := Some "POST";
                   headers := [];
                   body := Some (JSON_stringify data) |} ;;
  zod_parse SalesforceCreateResponseSchema response.

(** Get a single record by ID. *)
Definition getRecord (sobject recordId : string) (fields : option (list string)) : M Json :=
  let endpoint := "/sobjects/" ++ sobject ++ "/" ++ recordId in
  let endpoint :=
    match fields with
    | Some ((_ :: _) as fields) => endpoint ++ "?fields=" ++ String.concat "," fields
    | _ => endpoint
    end in
  request_default endpoint no_options.

(** Update an existing record. *)
Definition updateRecord (sobject recordId : string) (data : Json) : M unit :=
  request_default ("/sobjects/" ++ sobject ++ "/" ++ recordId)
    {| method := Some "PATCH";
       headers := [];
       body := Some (JSON_stringify data) |} ;;;
  ret tt.

(** Delete a record. *)
Definition deleteRecord (sobject recordId : string) : M unit :=
  request_default ("/sobjects/" ++ sobject ++ "/" ++ recordId)
    {| method := Some "DELETE"; headers := []; body := None |} ;;;
  ret tt.

(** Upsert a record by external ID. *)
Definition upsertRecord (sobject externalIdField externalIdValue : string)
    (data : Json) : M Json :=
  request_default
    ("/sobjects/" ++ sobject ++ "/" ++ externalIdField ++ "/" ++ externalIdValue)
    {| method := Some "PATCH";
       headers := [];
       body := Some (JSON_stringify data) |}.

(** *** HTI-specific methods *)

(** [Schema.array().parse(records)] on the outcome of a query. *)
Definition validate_records (shape : list (string * ZodType))
    (queried : option (Outcome (list Json) * Machine))
    : option (Outcome (list Json) * Machine) :=
  match queried with
  | Some (Return records, m) =>
      match parse_array shape records with
      | Some validated => Some (Return validated, m)
      | None => Some (Throw ZodError, m)
      end
  | other => other
  end.

(** Get all Accounts. *)
Definition getAccounts (turns : nat) (m : Machine)
    : option (Outcome (list Json) * Machine) :=
  validate_records AccountSchema
    (query turns
       "SELECT Id, Name, Industry, Type, Website, Phone,
       BillingStreet, BillingCity, BillingState, BillingPostalCode,
       Description, CreatedDate, LastModifiedDate
       FROM Account
       ORDER BY LastModifiedDate DESC"
       true m).

(** Get all Contacts. *)
Definition getContacts (turns : nat) (m : Machine)
    : option (Outcome (list Json) * Machine) :=
  validate_records ContactSchema
    (query turns
       "SELECT Id, FirstName, LastName, Email, Phone, Title, AccountId,
       MailingStreet, MailingCity, MailingState, MailingPostalCode,
       CreatedDate, LastModifiedDate
       FROM Contact
       ORDER BY LastModifiedDate DESC"
       true m).

(** Get all Opportunities. *)
Definition getOpportunities (turns : nat) (m : Machine)
    : option (Outcome (list Json) * Machine) :=
  validate_records OpportunitySchema
    (query turns
       "SELECT Id, Name, AccountId, Amount, StageName, CloseDate,
       Probability, Type, Description, CreatedDate, LastModifiedDate
       FROM Opportunity
       ORDER BY LastModifiedDate DESC"
       true m).

(** Get all Tasks. *)
Definition getTasks (turns : nat) (m : Machine)
    : option (Outcome (list Json) * Machine) :=
  validate_records TaskSchema
    (query turns
       "SELECT Id, Subject, Status, Priority, WhoId, WhatId,
       ActivityDate, Description, CreatedDate, LastModifiedDate
       FROM Task
       ORDER BY LastModifiedDate DESC"
       true m).

(** [searchTerm.replace(/'/g, "\\'")]: a backslash before every single
    quote. *)
Fixpoint escape_quotes (searchTerm : string) : string :=
  match searchTerm with
  | EmptyString => EmptyString
  | String c rest =>
      if Ascii.eqb c "'"%char
      then String "\"%char (String "'"%char (escape_quotes rest))
      else String c (escape_quotes rest)
  end.

(** The SOQL text of [searchAccounts] for an escaped term. *)
Definition search_soql (escapedTerm : string) : string :=
  "SELECT Id, Name, Industry, Type, Website, Phone, BillingCity, BillingState
       FROM Account
       WHERE Name LIKE '%" ++ escapedTerm ++ "%'
       ORDER BY Name ASC
       LIMIT 50".

(** Search Accounts by name. *)
Definition searchAccounts (turns : nat) (searchTerm : string) (m : Machine)
    : option (Outcome (list Json) * Machine) :=
  let escapedTerm := escape_quotes searchTerm in
  validate_records AccountSchema (query turns (search_soql escapedTerm) true m).

(** Get API limits. *)
Definition getLimits : M Json := request_default "/limits/" no_options.

(** Describe an sObject (get metadata). *)
Definition describeSObject (sobject : string) : M Json :=
  request_default ("/sobjects/" ++ sobject ++ "/describe/") no_options.

End Client.

(** ** The error taxonomy of the specification

    [client.ts] has a single error type, [Error], and tells its failures
    apart by message only.  [error_class] reads the classes of the
    specification on those messages: the two authentication messages, the
    timeout message and the API error messages.  No message of the client
    speaks of rate limits or of server errors. *)

Inductive ErrorClass : Type :=
| AuthenticationError
| RateLimitError
| ServerError
| TimeoutError
| ApiError
| Unclassified.

Definition error_class (e : JsError) : ErrorClass :=
  if negb (String.eqb (name e) "Error") then Unclassified
  else if String.prefix "Salesforce authentication failed" (message e)
       then AuthenticationError
  else if String.eqb (message e) "Salesforce request timeout after retries"
       then TimeoutError
  else if String.prefix "Salesforce API Error" (message e)
       then ApiError
  else Unclassified.

(** ** Observations on a machine *)

Definition is_resource_fetch (e : Event) : bool :=
  match e with Fetch ResourceEndpoint _ _ => true | _ => false end.

Definition is_token_fetch (e : Event) : bool :=
  match e with Fetch TokenEndpoint _ _ => true | _ => false end.

(** The HTTP calls made so far to the resource endpoint and to the token
    endpoint, and the timer waits made so far, oldest first. *)
Definition resource_calls (m : Machine) : nat :=
  List.length (filter is_resource_fetch (trace m)).

Definition token_calls (m : Machine) : nat :=
  List.length (filter is_token_fetch (trace m)).

Fixpoint waits_of (t : list Event) : list Z :=
  match t with
  | [] => []
  | Timer ms :: rest => ms :: waits_of rest
  | Fetch _ _ _ :: rest => waits_of rest
  end.

Definition waits (m : Machine) : list Z := waits_of (trace m).

(** ** Vocabulary of the properties *)

(** The HTTP call of one attempt of [request], as [request] issues it once
    [authenticate] has given it [token]. *)
Definition resource_call (endpoint : string) (options : RequestInit)
    (token : string * string) : M Response :=
  self <- read_this ;;
  fetch ResourceEndpoint
    (snd token ++ "/services/data/" ++ template (apiVersion (config self)) ++ endpoint)
    {| method := method options;
       headers := spread [ ("Authorization", "Bearer " ++ fst token);
                           ("Content-Type", "application/json") ]
                         (headers options);
       body := body options |}
    (Some (requestTimeoutMs self)).

(** The machine after that call has been answered within [latency]
    milliseconds. *)
Definition after_call (endpoint : string) (options : RequestInit)
    (token : string * string) (latency : Z) (m : Machine) : Machine :=
  elapse latency
    (consume_reply
       (record_event
          (Fetch ResourceEndpoint
             (snd token ++ "/services/data/"
              ++ template (apiVersion (config (this m))) ++ endpoint)
             {| method := method options;
                headers := spread [ ("Authorization", "Bearer " ++ fst token);
                                    ("Content-Type", "application/json") ]
                                  (headers options);
                body := body options |})
          m)).

(** The machine after the wait of [delay] milliseconds that follows [m]. *)
Definition after_wait (delay : Z) (m : Machine) : Machine :=
  elapse delay (record_event (Timer delay) m).

(** The token [authenticate] hands out on a cache hit. *)
Definition token_of (cached : TokenCache) : string * string :=
  (accessToken cached, instanceUrl cached).

(** An outcome of the HTTP call that [request] answers with a backoff when
    it has budget: 429, a status from 500 up, or the abort of the timeout. *)
Definition transient (out : Outcome Response) : Prop :=
  match out with
  | Return response =>
      status response <> 401 /\ (status response = 429 \/ 500 <= status response)
  | Throw error => name error = "AbortError"
  end.

(** A page of a query result as the network serves it: the latency of
    the answer and the response. *)
Definition Page : Type := (Z * Response)%type.

Definition reply_of (p : Page) : Reply := Responds (fst p) (snd p).

Definition total_latency (pages : list Page) : Z :=
  fold_right (fun p acc => fst p + acc) 0 pages.

(** Whether a query response announces a further page: it is not [done]
    and it has a [nextRecordsUrl]. *)
Definition has_more (result : Json) : bool :=
  negb (truthy (get "done" result)) && truthy (get "nextRecordsUrl" result).

Section Pages.

Variable JSON_parse : string -> option Json.

(** The records the server put in a page. *)
Definition served_records (p : Page) : list Json :=
  match JSON_parse (text (snd p)) with
  | Some j => as_array (get "records" j)
  | None => []
  end.

(** The body of a response as [query] reads it. *)
Definition validated (response : Response) : option Json :=
  match JSON_parse (text response) with
  | Some j => parse SalesforceQueryResponseSchema j
  | None => None
  end.

(** The body of a response of the token endpoint as [authenticate] reads
    it. *)
Definition validated_token (response : Response) : option Json :=
  match JSON_parse (text response) with
  | Some json => parse SalesforceTokenResponseSchema json
  | None => None
  end.

(** A page that comes in time, as a success with a well-formed body, and
    that announces a further page or not, as [more] says. *)
Definition page_served (timeout : Z) (more : bool) (p : Page) : Prop :=
  0 <= fst p < timeout /\
  ok (snd p) = true /\
  status (snd p) <> 204 /\
  exists result, validated (snd p) = Some result /\ has_more result = more.

(** A result that spans the pages of [pages]: every page but the last
    announces a further page, the last does not. *)
Fixpoint pages_served (timeout : Z) (pages : list Page) : Prop :=
  match pages with
  | [] => False
  | p :: rest =>
      match rest with
      | [] => page_served timeout false p
      | _ :: _ => page_served timeout true p /\ pages_served timeout rest
      end
  end.

End Pages.

(** A schema of a scalar field: a string, a number or a boolean, optional
    or not.  Validation returns such a value as it is and rejects [null]. *)
Definition scalar (t : ZodType) : bool :=
  match t with
  | z_string | z_number | z_boolean => true
  | z_optional z_string | z_optional z_number | z_optional z_boolean => true
  | _ => false
  end.

Definition scalar_shape (shape : list (string * ZodType)) : bool :=
  forallb (fun kt => scalar (snd kt)) shape.

(** The record has an [Id] that is a string. *)
Definition has_Id (record : Json) : Prop :=
  exists id, get "Id" record = Some (JStr id).

(** The four object schemas of [types.ts]. *)
Definition sobject_schemas : list (list (string * ZodType)) :=
  [AccountSchema; ContactSchema; OpportunitySchema; TaskSchema].

(** The claims [generateJwtAssertion] has signed on machine [m]. *)
Definition assertion_payload (m : Machine) : JwtPayload :=
  {| iss := clientId (config (this m));
     sub := username (config (this m));
     aud := loginUrl (config (this m));
     exp := clock m / 1000 + 300 |}.

(** The call [authenticate] makes to the token endpoint with the form
    [form] as body. *)
Definition token_call (m : Machine) (form : string) : Event :=
  Fetch TokenEndpoint
    (template (loginUrl (config (this m))) ++ "/services/oauth2/token")
    {| method := Some "POST";
       headers := [("Content-Type", "application/x-www-form-urlencoded")];
       body := Some form |}.

Definition grant_params (assertion : string) : list (string * string) :=
  [ ("grant_type", "urn:ietf:params:oauth:grant-type:jwt-bearer");
    ("assertion", assertion) ].

(** The call [request] makes to the resource endpoint with [token]. *)
Definition resource_event (m : Machine) (endpoint : string) (options : RequestInit)
    (token : string * string) : Event :=
  Fetch ResourceEndpoint
    (snd token ++ "/services/data/"
     ++ template (apiVersion (config (this m))) ++ endpoint)
    {| method := method options;
       headers := spread [ ("Authorization", "Bearer " ++ fst token);
                           ("Content-Type", "application/json") ]
                         (headers options);
       body := body options |}.

(** The token a validated token response stands for. *)
Definition token_in (data : Json) : string * string :=
  (as_string (get "access_token" data), as_string (get "instance_url" data)).

(** The settings of the client of [m'] are those of the client of [m]. *)
Definition same_settings (m m' : Machine) : Prop :=
  config (this m') = config (this m) /\
  tokenCacheTtlMs (this m') = tokenCacheTtlMs (this m) /\
  requestTimeoutMs (this m') = requestTimeoutMs (this m) /\
  maxRetries (this m') = maxRetries (this m).

(** ** A concrete runtime

    A runtime and a network for concrete runs: [JSON.parse] on the bodies
    the runs use, a signer that needs a key, and a client built by
    [constructor] from a configuration without optional settings. *)

Definition dq (s : string) : string :=
  String (Ascii.ascii_of_nat 34) s ++ String (Ascii.ascii_of_nat 34) "".

Definition token_body : string :=
  "{" ++ dq "access_token" ++ ":" ++ dq "T1" ++ ","
      ++ dq "instance_url" ++ ":" ++ dq "https://x" ++ ","
      ++ dq "id" ++ ":" ++ dq "https://login.salesforce.com/id/00D/005" ++ ","
      ++ dq "token_type" ++ ":" ++ dq "Bearer" ++ ","
      ++ dq "issued_at" ++ ":" ++ dq "1700000000000" ++ ","
      ++ dq "signature" ++ ":" ++ dq "c2ln" ++ "}".

Definition create_body : string :=
  "{" ++ dq "id" ++ ":" ++ dq "001x" ++ "," ++ dq "success" ++ ":true,"
      ++ dq "errors" ++ ":[]}".

Definition errors_body : string :=
  "[{" ++ dq "message" ++ ":" ++ dq "Request limit exceeded" ++ ","
       ++ dq "errorCode" ++ ":" ++ dq "REQUEST_LIMIT_EXCEEDED" ++ "}]".

Definition page1_body : string :=
  "{" ++ dq "totalSize" ++ ":3," ++ dq "done" ++ ":false,"
      ++ dq "records" ++ ":[{" ++ dq "Id" ++ ":" ++ dq "1" ++ "},{"
      ++ dq "Id" ++ ":" ++ dq "2" ++ "}],"
      ++ dq "nextRecordsUrl" ++ ":" ++ dq "/services/data/v61.0/query/01g-2000" ++ "}".

Definition page2_body : string :=
  "{" ++ dq "totalSize" ++ ":3," ++ dq "done" ++ ":true,"
      ++ dq "records" ++ ":[{" ++ dq "Id" ++ ":" ++ dq "3" ++ "}]}".

Definition demo_JSON_parse (s : string) : option Json :=
  assoc_get s
    [ (token_body,
       JObj [ ("access_token", JStr "T1");
              ("instance_url", JStr "https://x");
              ("id", JStr "https://login.salesforce.com/id/00D/005");
              ("token_type", JStr "Bearer");
              ("issued_at", JStr "1700000000000");
              ("signature", JStr "c2ln") ]);
      (create_body,
       JObj [ ("id", JStr "001x"); ("success", JBool true); ("errors", JArr []) ]);
      (errors_body,
       JArr [ JObj [ ("message", JStr "Request limit exceeded");
                     ("errorCode", JStr "REQUEST_LIMIT_EXCEEDED") ] ]);
      (page1_body,
       JObj [ ("totalSize", JNum 3);
              ("done", JBool false);
              ("records", JArr [ JObj [("Id", JStr "1")]; JObj [("Id", JStr "2")] ]);
              ("nextRecordsUrl", JStr "/services/data/v61.0/query/01g-2000") ]);
      (page2_body,
       JObj [ ("totalSize", JNum 3);
              ("done", JBool true);
              ("records", JArr [ JObj [("Id", JStr "3")] ]) ]) ].

Definition demo_JSON_stringify (j : Json) : string := "{}".

Definition demo_encodeURIComponent (s : string) : string := s.

Definition demo_URLSearchParams_toString (params : list (string * string)) : string :=
  String.concat "&" (map (fun kv => fst kv ++ "=" ++ snd kv) params).

Definition demo_jwt_sign (payload : JwtPayload) (key : string) : JsError + string :=
  if String.eqb key "" then inl (Error "secretOrPrivateKey must have a value")
  else inr "assertion".

Definition demo_client : SalesforceClient :=
  constructor
    {| opt_config := mkConfig "3MVG9" "user@example.com" "PEM" None None None;
       opt_tokenCacheTtlMs := None;
       opt_requestTimeoutMs := None;
       opt_maxRetries := None |}.

(** The client at time 0, before any call, facing [replies]. *)
Definition fresh_machine (replies : list Reply) : Machine :=
  {| this := demo_client; clock := 0; network := replies; trace := [] |}.

(** The same with a token in the cache, good until [3300000]. *)
Definition warm_machine (replies : list Reply) : Machine :=
  with_tokenCache (Some (mkTokenCache "T1" "https://x" 3300000)) (fresh_machine replies).

Definition demo_authenticate : M (string * string) :=
  authenticate demo_JSON_parse demo_URLSearchParams_toString demo_jwt_sign.

Definition demo_request : string -> RequestInit -> Z -> M Json :=
  request demo_JSON_parse demo_URLSearchParams_toString demo_jwt_sign.

Definition demo_createRecord : string -> Json -> M Json :=
  createRecord demo_JSON_parse demo_JSON_stringify demo_URLSearchParams_toString
    demo_jwt_sign.

Definition demo_query : nat -> string -> bool -> Machine ->
                        option (Outcome (list Json) * Machine) :=
  query demo_JSON_parse demo_encodeURIComponent demo_URLSearchParams_toString
    demo_jwt_sign.

Definition T1 : string * string := ("T1", "https://x").

(** The warm client at the very instant its token expires. *)
Definition expired_machine (replies : list Reply) : Machine :=
  {| this := this (warm_machine replies);
     clock := 3300000;
     network := replies;
     trace := [] |}.

Definition r401 : Response := mkResponse 401 "".
Definition r404 : Response := mkResponse 404 "Not Found".
Definition r429 : Response := mkResponse 429 errors_body.
Definition r503 : Response := mkResponse 503 "Service Unavailable".

Definition create_options : RequestInit :=
  {| method := Some "POST"; headers := []; body := Some "{}" |}.

Definition two_pages : list Page :=
  [ (120, mkResponse 200 page1_body); (80, mkResponse 200 page2_body) ].

(** Records, an environment and a file system for the runs of the
    configuration and of the object schemas. *)
Definition account_record : Json :=
  JObj [ ("attributes", JObj [("type", JStr "Account")]);
         ("Id", JStr "001");
         ("Name", JStr "Acme");
         ("Employees__c", JNum 7) ].

Definition null_record : Json :=
  JObj [ ("Id", JStr "002"); ("Industry", JNull) ].

Definition demo_env (variable : string) : option string :=
  assoc_get variable
    [ ("SF_CLIENT_ID", "3MVG9");
      ("SF_USERNAME", "user@example.com");
      ("SF_PRIVATE_KEY", "PEM");
      ("SF_PRIVATE_KEY_PATH", "/keys/salesforce.key") ].

Definition bare_env (variable : string) : option string := None.

Definition demo_readFileSync (path : string) : JsError + string := inr "PEM of the file".

Definition failing_readFileSync (path : string) : JsError + string :=
  inl (Error "ENOENT: no such file or directory").

Definition demo_config : SalesforceConfig :=
  mkConfig "3MVG9" "user@example.com" "PEM"
    (Some HUBZONE_INSTANCE_URL) (Some SALESFORCE_LOGIN_URL) (Some DEFAULT_API_VERSION).

(** A client without key material, before any call. *)
Definition keyless_machine (replies : list Reply) : Machine :=
  {| this := constructor
               {| opt_config := mkConfig "3MVG9" "user@example.com" "" None None None;
                  opt_tokenCacheTtlMs := None;
                  opt_requestTimeoutMs := None;
                  opt_maxRetries := None |};
     clock := 0;
     network := replies;
     trace := [] |}.

Definition token_answer : Response := mkResponse 200 token_body.
Definition created_answer : Response := mkResponse 201 create_body.
Definition no_content : Response := mkResponse 204 "".

Definition demo_grant : string :=
  demo_URLSearchParams_toString (grant_params "assertion").

(** ** Properties *)

Ltac unfold_ops :=
  unfold bind, ret, throw, attempt, read_this, Date_now, sleep, fetch,
    assign_tokenCache, clearTokenCache, response_json, zod_parse in *.

(** Case analysis on an innermost [match] of the goal. *)
Ltac break_match :=
  match goal with
  | |- context [match ?x with _ => _ end] =>
      lazymatch x with
      | context [match _ with _ => _ end] => fail
      | _ => destruct x eqn:?
      end
  end.

(** Case analysis on an innermost [match] of a hypothesis. *)
Ltac break_in H :=
  match type of H with
  | context [match ?x with _ => _ end] =>
      lazymatch x with
      | context [match _ with _ => _ end] => fail
      | _ => destruct x eqn:?
      end
  end.

(** Unfolding of the operations of the client. *)
Ltac unfold_authenticate := unfold authenticate.
Ltac unfold_createRecord := unfold createRecord.
Ltac unfold_generateJwtAssertion := unfold generateJwtAssertion.
Ltac unfold_query := unfold query.
Ltac unfold_request := unfold request.
Ltac unfold_request_body := unfold request_body.
Ltac unfold_request_default := unfold request_default.
Ltac unfold_validated_token := unfold validated_token.
Ltac unfold_updateRecord := unfold updateRecord.
Ltac unfold_deleteRecord := unfold deleteRecord.
Ltac unfold_upsertRecord := unfold upsertRecord.
Ltac unfold_getRecord := unfold getRecord.
Ltac unfold_query_loop_step := cbn [query_loop].
Ltac unfold_validated_in H := unfold validated in H.
Ltac unfold_served_records := unfold served_records.
Ltac unfold_validated_token_in H := unfold validated_token in H.

Lemma filter_snoc {A : Type} (p : A -> bool) (l : list A) (x : A) :
  filter p (l ++ [x]) = (filter p l ++ if p x then [x] else [])%list.
Proof.
  rewrite filter_app. simpl. destruct (p x); reflexivity.
Qed.

Lemma waits_of_app (t1 t2 : list Event) :
  waits_of (t1 ++ t2) = (waits_of t1 ++ waits_of t2)%list.
Proof.
  induction t1 as [|e t1 IH]; simpl; [reflexivity|].
  destruct e; simpl; rewrite IH; reflexivity.
Qed.

(** *** What validation keeps *)

Lemma traverse_id {A : Type} (f : A -> option A) (l l' : list A) :
  (forall x y, In x l -> f x = Some y -> y = x) ->
  traverse f l = Some l' -> l' = l.
Proof.
  revert l'. induction l as [|x l IH]; simpl; intros l' Hf H.
  - inversion H. reflexivity.
  - destruct (f x) as [y|] eqn:Hx; [|discriminate].
    destruct (traverse f l) as [ys|] eqn:Hl; [|discriminate].
    inversion H; subst. f_equal.
    + apply Hf with (x := x); auto.
    + apply IH; auto.
Qed.

Lemma traverse_any (l : list Json) : traverse (parse z_any) l = Some l.
Proof.
  induction l as [|x l IH]; [reflexivity|].
  cbn [traverse]. rewrite IH. reflexivity.
Qed.

(** A list of records passes validation as it is. *)
Lemma parse_records_id (v v' : Json) :
  parse (z_array (z_record z_any)) v = Some v' -> v' = v.
Proof.
  destruct v; simpl; try discriminate.
  destruct (traverse _ items) as [items'|] eqn:H; simpl; [|discriminate].
  intros E. inversion E. f_equal.
  apply traverse_id in H; [exact H|].
  intros x y _ Hx. destruct x; simpl in Hx. all: try discriminate Hx.
  destruct (traverse _ props) as [props'|] eqn:Hp; simpl in Hx; [|discriminate Hx].
  inversion Hx. f_equal.
  apply traverse_id in Hp; [exact Hp|].
  intros [k w] [k' w'] _. simpl. intros E''. inversion E''. reflexivity.
Qed.

(** Validation against an object schema goes through the shape key by key. *)
Lemma parse_object_nil (props : list (string * Json)) :
  parse (z_object []) (JObj props) = Some (JObj []).
Proof. reflexivity. Qed.

Lemma parse_object_cons (k : string) (ft : ZodType) (sh : list (string * ZodType))
    (props : list (string * Json)) :
  parse (z_object ((k, ft) :: sh)) (JObj props) =
  match assoc_get k props with
  | Some v =>
      match parse ft v, parse (z_object sh) (JObj props) with
      | Some v', Some rest => Some (JObj ((k, v') :: props_of rest))
      | _, _ => None
      end
  | None => if accepts_undefined ft then parse (z_object sh) (JObj props) else None
  end.
Proof.
  cbn [parse].
  destruct (assoc_get k props) as [v|].
  - destruct (parse ft v) as [v'|]; [|reflexivity].
    match goal with |- context [option_map JObj (?f sh)] => destruct (f sh) end;
      reflexivity.
  - destruct (accepts_undefined ft); reflexivity.
Qed.

(** A validated query response has the records of the response it was
    validated from, and its [nextRecordsUrl], when it has one, is a string. *)
Lemma query_response_validated (j result : Json) :
  parse SalesforceQueryResponseSchema j = Some result ->
  as_array (get "records" result) = as_array (get "records" j) /\
  (get "nextRecordsUrl" result = None \/
   exists url, get "nextRecordsUrl" result = Some (JStr url)).
Proof.
  unfold SalesforceQueryResponseSchema.
  intros H. destruct j; try discriminate H.
  rewrite !parse_object_cons, parse_object_nil in H.
  cbn [accepts_undefined] in H.
  destruct (assoc_get "totalSize" props) as [v1|]; [|discriminate H].
  destruct (parse z_number v1) as [v1'|]; [|discriminate H].
  destruct (assoc_get "done" props) as [v2|]; [|discriminate H].
  destruct (parse z_boolean v2) as [v2'|]; [|discriminate H].
  destruct (assoc_get "records" props) as [v3|] eqn:Hrecords; [|discriminate H].
  destruct (parse (z_array (z_record z_any)) v3) as [v3'|] eqn:H3; [|discriminate H].
  apply parse_records_id in H3. subst v3'.
  cbn [get]. rewrite Hrecords.
  destruct (assoc_get "nextRecordsUrl" props) as [v4|].
  - destruct (parse (z_optional z_string) v4) as [v4'|] eqn:H4; [|discriminate H].
    injection H as <-. split; [reflexivity|]. right.
    destruct v4; try discriminate H4. injection H4 as <-. eexists. reflexivity.
  - injection H as <-. split; [reflexivity|]. left. reflexivity.
Qed.

Lemma resource_call_in_time (endpoint : string) (options : RequestInit)
    (token : string * string) (m : Machine)
    (latency : Z) (response : Response) (rest : list Reply) :
  network m = Responds latency response :: rest ->
  latency < requestTimeoutMs (this m) ->
  resource_call endpoint options token m =
  (Return response, after_call endpoint options token latency m).
Proof.
  intros Hnet Hlat. unfold resource_call, after_call. unfold_ops. cbv beta.
  simpl network. rewrite Hnet. simpl latency_of.
  apply Z.ltb_lt in Hlat. rewrite Hlat. reflexivity.
Qed.

Section Properties.

Variable JSON_parse : string -> option Json.
Variable JSON_stringify : Json -> string.
Variable encodeURIComponent : string -> string.
Variable URLSearchParams_toString : list (string * string) -> string.
Variable jwt_sign : JwtPayload -> string -> JsError + string.

Local Abbreviation authenticate := (authenticate JSON_parse URLSearchParams_toString jwt_sign).
Local Abbreviation request := (request JSON_parse URLSearchParams_toString jwt_sign).
Local Abbreviation request_rec := (request_rec JSON_parse URLSearchParams_toString jwt_sign).
Local Abbreviation request_body := (request_body JSON_parse URLSearchParams_toString jwt_sign).
Local Abbreviation request_default :=
  (request_default JSON_parse URLSearchParams_toString jwt_sign).
Local Abbreviation query :=
  (query JSON_parse encodeURIComponent URLSearchParams_toString jwt_sign).
Local Abbreviation query_loop := (query_loop JSON_parse URLSearchParams_toString jwt_sign).
Local Abbreviation createRecord :=
  (createRecord JSON_parse JSON_stringify URLSearchParams_toString jwt_sign).
Local Abbreviation generateJwtAssertion := (generateJwtAssertion jwt_sign).
Local Abbreviation served_records := (served_records JSON_parse).
Local Abbreviation validated := (validated JSON_parse).
Local Abbreviation page_served := (page_served JSON_parse).
Local Abbreviation pages_served := (pages_served JSON_parse).

(** *** Authentication *)

Lemma generateJwtAssertion_pure (m : Machine) :
  snd (generateJwtAssertion m) = m.
Proof.
  unfold_generateJwtAssertion. unfold_ops.
  break_match; reflexivity.
Qed.

(** What a run of [authenticate] can do to the machine: it leaves it alone
    (cache hit, or the assertion could not be signed), or it makes one
    call to the token endpoint. *)
Lemma authenticate_effect (m : Machine) :
  let (out, m') := authenticate m in
  m' = m \/
  exists url init,
    trace m' = (trace m ++ [Fetch TokenEndpoint url init])%list /\
    config (this m') = config (this m) /\
    tokenCacheTtlMs (this m') = tokenCacheTtlMs (this m) /\
    requestTimeoutMs (this m') = requestTimeoutMs (this m) /\
    maxRetries (this m') = maxRetries (this m) /\
    network m' = tl (network m).
Proof.
  unfold_authenticate; unfold_generateJwtAssertion. unfold_ops.
  cbv beta.
  repeat (break_match; simpl; auto);
    right; do 2 eexists; simpl; repeat split; try reflexivity;
    match goal with H : network _ = _ |- _ => rewrite H; reflexivity end.
Qed.

Lemma authenticate_hit (m : Machine) (cached : TokenCache) :
  tokenCache (this m) = Some cached ->
  clock m < expiresAt cached ->
  authenticate m = (Return (accessToken cached, instanceUrl cached), m).
Proof.
  intros Hcache Hnow.
  unfold_authenticate. unfold_ops. cbv beta.
  unfold fresh_token. rewrite Hcache.
  apply Z.ltb_lt in Hnow. rewrite Hnow. reflexivity.
Qed.

(** C2.  When a token is cached and the current time is strictly before
    its expiry instant, [authenticate] returns the cached access token and
    instance URL and leaves the machine as it was: the cache is unchanged
    and no call is made, in particular none to the token endpoint. *)
Theorem authenticate_cache_hit (m : Machine) (cached : TokenCache) :
  tokenCache (this m) = Some cached ->
  clock m < expiresAt cached ->
  authenticate m = (Return (accessToken cached, instanceUrl cached), m) /\
  token_calls (snd (authenticate m)) = token_calls m.
Proof.
  intros Hcache Hnow.
  rewrite (authenticate_hit m Hcache Hnow). split; reflexivity.
Qed.

(** C10.  A run of [authenticate] that fails (the assertion cannot be
    signed, the network rejects, the token endpoint answers with a status
    that is not a success, or the answer does not have the expected shape)
    leaves the cached-token slot exactly as it found it. *)
Theorem authenticate_failure_atomic (m m' : Machine) (e : JsError) :
  authenticate m = (Throw e, m') ->
  tokenCache (this m') = tokenCache (this m).
Proof.
  unfold_authenticate; unfold_generateJwtAssertion. unfold_ops.
  cbv beta.
  repeat (break_match; simpl);
    intros H; inversion H; subst; reflexivity.
Qed.

(** C7.  When the cache does not answer and the token exchange succeeds,
    [authenticate] leaves in the cache slot a new token made of the access
    token and instance URL it returns, expiring at the current time plus
    the configured TTL; the TTL of a client built without one is 55
    minutes, 3300000 ms. *)
Theorem authenticate_stores_exchanged_token
    (m m' : Machine) (token : string * string) :
  fresh_token (tokenCache (this m)) (clock m) = None ->
  authenticate m = (Return token, m') ->
  tokenCache (this m') =
    Some {| accessToken := fst token;
            instanceUrl := snd token;
            expiresAt := clock m' + tokenCacheTtlMs (this m') |} /\
  (forall options : SalesforceClientOptions,
      tokenCacheTtlMs (constructor options) =
        match opt_tokenCacheTtlMs options with
        | Some ttl => ttl
        | None => 3300000
        end).
Proof.
  intros Hmiss Hrun. split.
  - revert Hrun.
    unfold_authenticate; unfold_generateJwtAssertion. unfold_ops.
    cbv beta. rewrite Hmiss.
    repeat (break_match; simpl);
      intros H; inversion H; subst; reflexivity.
  - intros options. unfold constructor, nullish. simpl.
    destruct (opt_tokenCacheTtlMs options); reflexivity.
Qed.

(** After a cache miss every token [authenticate] returns comes from a
    call to the token endpoint. *)
Lemma authenticate_without_cache (m m' : Machine) (token : string * string) :
  tokenCache (this m) = None ->
  authenticate m = (Return token, m') ->
  exists url init, trace m' = (trace m ++ [Fetch TokenEndpoint url init])%list.
Proof.
  intros Hnone.
  unfold_authenticate; unfold_generateJwtAssertion. unfold_ops.
  cbv beta. rewrite Hnone. simpl fresh_token. cbv iota.
  repeat (break_match; simpl);
    intros H; inversion H; subst;
    try match goal with E : fresh_token None _ = Some _ |- _ => discriminate E end;
    do 2 eexists; reflexivity.
Qed.

Lemma authenticate_calls (m : Machine) :
  resource_calls (snd (authenticate m)) = resource_calls m /\
  (token_calls (snd (authenticate m)) <= token_calls m + 1)%nat /\
  maxRetries (this (snd (authenticate m))) = maxRetries (this m).
Proof.
  pose proof (authenticate_effect m) as H.
  destruct (authenticate m) as [out m']. simpl.
  destruct H as [-> | (url & init & Ht & _ & _ & _ & Hr & _)].
  - repeat split; lia.
  - unfold resource_calls, token_calls. rewrite Ht, !filter_snoc, !length_app.
    simpl. repeat split; lia.
Qed.

(** The call of one attempt is one more call to the resource endpoint. *)
Lemma resource_call_calls (endpoint : string) (options : RequestInit)
    (token : string * string) (m : Machine) :
  let m' := snd (resource_call endpoint options token m) in
  resource_calls m' = S (resource_calls m) /\
  token_calls m' = token_calls m /\
  this m' = this m.
Proof.
  unfold resource_call. unfold_ops. cbv beta.
  unfold resource_calls, token_calls.
  repeat (break_match; simpl);
    rewrite !filter_snoc, !length_app; simpl; repeat split; lia.
Qed.

(** *** Generic request *)

(** Without budget the recursive call is never reached. *)
Lemma request_body_without_budget (again again' : M Json)
    (endpoint : string) (options : RequestInit) (retries : Z) (m : Machine) :
  retries <= 0 ->
  request_body again endpoint options retries m =
  request_body again' endpoint options retries m.
Proof.
  intros Hr.
  assert (E : (retries >? 0) = false) by (rewrite Z.gtb_ltb; apply Z.ltb_ge; lia).
  unfold_request_body; unfold bind.
  destruct (authenticate m) as [[[accessToken instanceUrl]|e] m1]; [|reflexivity].
  unfold read_this, attempt.
  match goal with |- context [fetch ?s ?u ?i ?t m1] =>
    destruct (fetch s u i t m1) as [[response|error] m2] end;
    rewrite E, ?Bool.andb_false_r; reflexivity.
Qed.

(** [request] satisfies the recursive equation of the source. *)
Lemma request_unfold (endpoint : string) (options : RequestInit)
    (retries : Z) (m : Machine) :
  request endpoint options retries m =
  request_body (request endpoint options (retries - 1)) endpoint options retries m.
Proof.
  unfold_request.
  destruct (Z.to_nat retries) as [|depth] eqn:E; simpl.
  - apply request_body_without_budget. lia.
  - replace (Z.to_nat (retries - 1)) with depth by lia. reflexivity.
Qed.

(** One attempt of [request]: authentication, then the HTTP call, then
    the decision on what came back. *)
Lemma request_attempt (endpoint : string) (options : RequestInit) (retries : Z)
    (m m1 m2 : Machine) (token : string * string) (out : Outcome Response) :
  authenticate m = (Return token, m1) ->
  resource_call endpoint options token m1 = (out, m2) ->
  request endpoint options retries m =
  let again := request endpoint options (retries - 1) in
  let backoff := sleep (backoff_delay (maxRetries (this m1)) retries) ;;; again in
  match out with
  | Throw error =>
      if String.eqb (name error) "AbortError" then
        if retries >? 0 then backoff m2
        else (Throw (Error "Salesforce request timeout after retries"), m2)
      else (Throw error, m2)
  | Return response =>
      if status response =? 401 then
        if retries >? 0 then again (with_tokenCache None m2)
        else (Throw (Error "Salesforce authentication failed after retries"),
              with_tokenCache None m2)
      else if (status response =? 429) && (retries >? 0) then backoff m2
      else if (status response >=? 500) && (retries >? 0) then backoff m2
      else if negb (ok response) then
        (Throw (Error (api_error_message JSON_parse response)), m2)
      else if status response =? 204 then (Return (JObj []), m2)
      else response_json JSON_parse response m2
  end.
Proof.
  intros Hauth Hcall.
  rewrite request_unfold. unfold_request_body.
  unfold bind at 1. rewrite Hauth. destruct token as [accessToken instanceUrl].
  unfold resource_call, bind, read_this in Hcall. cbv beta in Hcall.
  simpl fst in Hcall. simpl snd in Hcall.
  unfold bind at 1, read_this at 1. unfold bind at 1, attempt at 1.
  rewrite Hcall. clear Hcall Hauth.
  destruct out as [response|error]; cbv zeta iota beta.
  - change (String.eqb (name (Error ?x)) "AbortError") with false.
    cbv iota.
    destruct (status response =? 401).
    + unfold clearTokenCache, assign_tokenCache, bind, throw.
      destruct (retries >? 0); reflexivity.
    + destruct ((status response =? 429) && (retries >? 0)); [reflexivity|].
      destruct ((status response >=? 500) && (retries >? 0)); [reflexivity|].
      destruct (negb (ok response)); [reflexivity|].
      destruct (status response =? 204); reflexivity.
  - destruct (String.eqb (name error) "AbortError"); [|reflexivity].
    destruct (retries >? 0); reflexivity.
Qed.

Lemma request_authentication_failure (endpoint : string) (options : RequestInit)
    (retries : Z) (m m1 : Machine) (e : JsError) :
  authenticate m = (Throw e, m1) ->
  request endpoint options retries m = (Throw e, m1).
Proof.
  intros Hauth. rewrite request_unfold. unfold_request_body.
  unfold bind at 1. rewrite Hauth. reflexivity.
Qed.

(** The message of an API error starts as such, whatever the body. *)
Lemma api_error_class (response : Response) :
  error_class (Error (api_error_message JSON_parse response)) = ApiError.
Proof.
  unfold api_error_message.
  destruct (JSON_parse (text response)) as [parsed|]; [|reflexivity].
  destruct (parse SalesforceErrorSchema parsed); reflexivity.
Qed.

(** C1.  An attempt answered with 401 clears the cached token before
    anything else happens.  With budget left the request is then run
    again with the budget decremented by one, on the machine whose cache
    is empty, so that any token this retry uses was fetched from the
    token endpoint; without budget the request fails with the
    authentication error. *)
Theorem request_unauthorized (endpoint : string) (options : RequestInit)
    (retries : Z) (m m1 m2 : Machine) (token : string * string)
    (response : Response) :
  authenticate m = (Return token, m1) ->
  resource_call endpoint options token m1 = (Return response, m2) ->
  status response = 401 ->
  let cleared := with_tokenCache None m2 in
  let failure := Error "Salesforce authentication failed after retries" in
  tokenCache (this cleared) = None /\
  (0 < retries ->
     request endpoint options retries m =
     request endpoint options (retries - 1) cleared) /\
  (retries <= 0 ->
     request endpoint options retries m = (Throw failure, cleared)) /\
  error_class failure = AuthenticationError /\
  (forall token' m',
      authenticate cleared = (Return token', m') ->
      exists url init,
        trace m' = (trace cleared ++ [Fetch TokenEndpoint url init])%list).
Proof.
  intros Hauth Hcall Hstatus cleared failure.
  pose proof (@request_attempt endpoint options retries _ _ _ _ _ Hauth Hcall) as Hstep.
  cbv zeta iota in Hstep. rewrite Hstatus in Hstep. simpl (401 =? 401) in Hstep.
  cbv iota in Hstep.
  split; [reflexivity|]. split; [|split; [|split]].
  - intros Hr. rewrite Hstep.
    replace (retries >? 0) with true; [reflexivity|].
    symmetry. rewrite Z.gtb_ltb. apply Z.ltb_lt. exact Hr.
  - intros Hr. rewrite Hstep.
    replace (retries >? 0) with false; [reflexivity|].
    symmetry. rewrite Z.gtb_ltb. apply Z.ltb_ge. exact Hr.
  - reflexivity.
  - intros token' m' Hretry.
    apply authenticate_without_cache with (token := token'); [reflexivity|exact Hretry].
Qed.

Lemma request_backoff (endpoint : string) (options : RequestInit)
    (retries : Z) (m m1 m2 : Machine) (token : string * string)
    (out : Outcome Response) :
  authenticate m = (Return token, m1) ->
  resource_call endpoint options token m1 = (out, m2) ->
  transient out ->
  0 < retries ->
  request endpoint options retries m =
  request endpoint options (retries - 1)
    (after_wait (2 ^ (maxRetries (this m) - retries) * 1000) m2).
Proof.
  intros Hauth Hcall Hout Hr.
  rewrite (@request_attempt endpoint options retries _ _ _ _ _ Hauth Hcall).
  assert (Hmax : maxRetries (this m1) = maxRetries (this m)).
  { pose proof (authenticate_calls m) as H. rewrite Hauth in H. apply H. }
  assert (E : (retries >? 0) = true) by (rewrite Z.gtb_ltb; apply Z.ltb_lt; lia).
  unfold transient in Hout.
  destruct out as [response|error]; cbv zeta iota; rewrite E, Hmax.
  - rewrite !Bool.andb_true_r. destruct Hout as [Hne [H429 | H500]].
    + apply Z.eqb_neq in Hne. rewrite Hne, H429. reflexivity.
    + apply Z.eqb_neq in Hne. rewrite Hne.
      apply Z.geb_le in H500. rewrite H500.
      destruct (status response =? 429); reflexivity.
  - rewrite Hout. reflexivity.
Qed.

(** What [request] does with a status that is not a success, not 401, and
    for which it has no retry: it raises the API error on the spot. *)
Lemma request_reports_failure (endpoint : string) (options : RequestInit)
    (retries : Z) (m m1 m2 : Machine) (token : string * string)
    (response : Response) :
  authenticate m = (Return token, m1) ->
  resource_call endpoint options token m1 = (Return response, m2) ->
  ok response = false ->
  status response <> 401 ->
  (status response =? 429) && (retries >? 0) = false ->
  (status response >=? 500) && (retries >? 0) = false ->
  request endpoint options retries m =
  (Throw (Error (api_error_message JSON_parse response)), m2).
Proof.
  intros Hauth Hcall Hok H401 H429 H500.
  rewrite (@request_attempt endpoint options retries _ _ _ _ _ Hauth Hcall).
  cbv zeta. apply Z.eqb_neq in H401. rewrite H401, H429, H500, Hok. reflexivity.
Qed.

(** C8.  A response whose status is not a success and is none of 401,
    429 and 500 or more makes the request fail at once with the API
    error, after that single HTTP call and whatever the retry budget.
    The message lists the messages of the body when the body is a
    structured error list; when the body is not JSON, or is JSON of
    another shape, the message is built from the raw body text and no
    other error is raised. *)
Theorem request_api_error (endpoint : string) (options : RequestInit)
    (retries : Z) (m m1 m2 : Machine) (token : string * string)
    (response : Response) :
  authenticate m = (Return token, m1) ->
  resource_call endpoint options token m1 = (Return response, m2) ->
  ok response = false ->
  status response <> 401 ->
  status response <> 429 ->
  status response < 500 ->
  let raised := Error (api_error_message JSON_parse response) in
  request endpoint options retries m = (Throw raised, m2) /\
  resource_calls m2 = S (resource_calls m) /\
  error_class raised = ApiError /\
  (forall parsed errors,
      JSON_parse (text response) = Some parsed ->
      parse SalesforceErrorSchema parsed = Some (JArr errors) ->
      message raised =
        "Salesforce API Error: "
        ++ String.concat ", " (map (fun e => as_string (get "message" e)) errors)) /\
  (JSON_parse (text response) = None \/
   (exists parsed, JSON_parse (text response) = Some parsed /\
                   parse SalesforceErrorSchema parsed = None) ->
   message raised =
     "Salesforce API Error (" ++ template_number (status response) ++ "): "
     ++ text response).
Proof.
  intros Hauth Hcall Hok H401 H429 H500 raised.
  split; [|split; [|split; [|split]]].
  - apply request_reports_failure with (m1 := m1) (token := token); auto.
    + apply Z.eqb_neq in H429. rewrite H429. reflexivity.
    + replace (status response >=? 500) with false; [reflexivity|].
      symmetry. rewrite Z.geb_leb. apply Z.leb_gt. exact H500.
  - pose proof (authenticate_calls m) as Ha. rewrite Hauth in Ha. simpl in Ha.
    pose proof (resource_call_calls endpoint options token m1) as Hc.
    rewrite Hcall in Hc. simpl in Hc. lia.
  - apply api_error_class.
  - intros parsed errors Hjson Hschema.
    unfold raised, Error. cbn [message]. unfold api_error_message.
    rewrite Hjson, Hschema. reflexivity.
  - intros [Hjson | (parsed & Hjson & Hschema)];
      unfold raised, Error; cbn [message]; unfold api_error_message;
      rewrite Hjson; [|rewrite Hschema]; reflexivity.
Qed.

(** C4, as the code has it.  With no budget left, a 429 and a status of
    500 or more are not told apart from the other failures: the request
    fails with the same API error, of the same class, that any other
    status outside the successes raises. *)
Theorem request_exhausted_budget (endpoint : string) (options : RequestInit)
    (retries : Z) (m m1 m2 : Machine) (token : string * string)
    (response : Response) :
  authenticate m = (Return token, m1) ->
  resource_call endpoint options token m1 = (Return response, m2) ->
  status response = 429 \/ 500 <= status response ->
  retries <= 0 ->
  let raised := Error (api_error_message JSON_parse response) in
  request endpoint options retries m = (Throw raised, m2) /\
  error_class raised = ApiError.
Proof.
  intros Hauth Hcall Hstatus Hr raised.
  assert (E : (retries >? 0) = false) by (rewrite Z.gtb_ltb; apply Z.ltb_ge; lia).
  split; [|apply api_error_class].
  apply request_reports_failure with (m1 := m1) (token := token); auto.
  - unfold ok. apply Bool.andb_false_iff. right. apply Z.leb_gt. lia.
  - lia.
  - rewrite E. apply Bool.andb_false_r.
  - rewrite E. apply Bool.andb_false_r.
Qed.

(** One level of the recursion of [request] makes one HTTP call on top of
    those of the call it nests. *)
Lemma request_calls_step (endpoint : string) (options : RequestInit)
    (retries : Z) (bound : nat) :
  (0 < retries ->
   forall m', (resource_calls (snd (request endpoint options (retries - 1) m'))
               <= resource_calls m' + bound)%nat) ->
  forall m, (resource_calls (snd (request endpoint options retries m))
             <= resource_calls m + S bound)%nat.
Proof.
  intros IH m.
  pose proof (authenticate_calls m) as Ha.
  destruct (authenticate m) as [[token|e] m1] eqn:Hauth; simpl in Ha.
  - pose proof (resource_call_calls endpoint options token m1) as Hc.
    destruct (resource_call endpoint options token m1) as [out m2] eqn:Hcall.
    simpl in Hc.
    rewrite (@request_attempt endpoint options retries _ _ _ _ _ Hauth Hcall).
    cbv zeta.
    assert (Hretry : forall m', resource_calls m' = resource_calls m2 ->
              (retries >? 0) = true ->
              (resource_calls (snd (request endpoint options (retries - 1) m'))
               <= resource_calls m + S bound)%nat).
    { intros m' Hm' Hgt. rewrite Z.gtb_ltb in Hgt. apply Z.ltb_lt in Hgt.
      specialize (IH Hgt m'). lia. }
    assert (Hwait : forall d, resource_calls (after_wait d m2) = resource_calls m2).
    { intros d. unfold after_wait, resource_calls. simpl.
      rewrite filter_snoc. simpl. rewrite app_nil_r. reflexivity. }
    destruct out as [response|error].
    + destruct (status response =? 401).
      { destruct (retries >? 0) eqn:Hgt; [apply Hretry; auto|].
        change (resource_calls m2 <= resource_calls m + S bound)%nat. lia. }
      destruct (retries >? 0) eqn:Hgt; rewrite ?Bool.andb_true_r, ?Bool.andb_false_r.
      * destruct (status response =? 429);
          [apply (Hretry (after_wait _ m2)); auto|].
        destruct (status response >=? 500);
          [apply (Hretry (after_wait _ m2)); auto|].
        destruct (negb (ok response)); [simpl; lia|].
        destruct (status response =? 204); [simpl; lia|].
        unfold response_json. destruct (JSON_parse (text response)); simpl; lia.
      * destruct (negb (ok response)); [simpl; lia|].
        destruct (status response =? 204); [simpl; lia|].
        unfold response_json. destruct (JSON_parse (text response)); simpl; lia.
    + destruct (String.eqb (name error) "AbortError"); [|simpl; lia].
      destruct (retries >? 0) eqn:Hgt; [|simpl; lia].
      apply (Hretry (after_wait _ m2)); auto.
  - rewrite (@request_authentication_failure endpoint options retries _ _ _ Hauth).
    simpl. lia.
Qed.

(** C9.  [request] is a total function of the machine, and a request
    started with budget [retries >= 0] makes at most [retries + 1] HTTP
    calls to the resource endpoint. *)
Theorem request_attempts_bounded (endpoint : string) (options : RequestInit)
    (retries : Z) (m : Machine) :
  0 <= retries ->
  Z.of_nat (resource_calls (snd (request endpoint options retries m)))
  <= Z.of_nat (resource_calls m) + retries + 1.
Proof.
  intros Hr.
  assert (H : forall n r m', Z.to_nat r = n ->
            (resource_calls (snd (request endpoint options r m'))
             <= resource_calls m' + S n)%nat).
  { induction n as [|n IH]; intros r m' Hn.
    - apply request_calls_step. intros Hpos. lia.
    - apply request_calls_step. intros _ m''. apply IH. lia. }
  specialize (H (Z.to_nat retries) retries m eq_refl). lia.
Qed.

(** A success other than 204 yields the parsed body. *)
Lemma request_success (endpoint : string) (options : RequestInit)
    (retries : Z) (m m1 m2 : Machine) (token : string * string)
    (response : Response) :
  authenticate m = (Return token, m1) ->
  resource_call endpoint options token m1 = (Return response, m2) ->
  ok response = true ->
  status response <> 204 ->
  request endpoint options retries m = response_json JSON_parse response m2.
Proof.
  intros Hauth Hcall Hok H204.
  rewrite (@request_attempt endpoint options retries _ _ _ _ _ Hauth Hcall).
  cbv zeta. rewrite Hok.
  unfold ok in Hok. apply Bool.andb_true_iff in Hok. destruct Hok as [Hlo Hhi].
  apply Z.leb_le in Hlo, Hhi.
  replace (status response =? 401) with false by (symmetry; apply Z.eqb_neq; lia).
  replace (status response =? 429) with false by (symmetry; apply Z.eqb_neq; lia).
  replace (status response >=? 500) with false
    by (symmetry; rewrite Z.geb_leb; apply Z.leb_gt; lia).
  replace (status response =? 204) with false by (symmetry; apply Z.eqb_neq; lia).
  reflexivity.
Qed.

(** *** CRUD operations *)

(** C6, as the code has it.  When the create call succeeds with a body
    that is the JSON object of an [id], a [success] flag and an [errors]
    list, in particular with id 001x, success true and no errors,
    [createRecord] returns that object with its three fields: the errors
    list is part of the schema and validation keeps it. *)
Theorem createRecord_returns_validated_response
    (sobject : string) (data : Json) (m m1 m2 : Machine)
    (token : string * string) (response : Response)
    (id : string) (success : bool) (errors : list Json) :
  authenticate m = (Return token, m1) ->
  resource_call ("/sobjects/" ++ sobject ++ "/")
    {| method := Some "POST"; headers := []; body := Some (JSON_stringify data) |}
    token m1 = (Return response, m2) ->
  ok response = true ->
  status response <> 204 ->
  JSON_parse (text response) =
    Some (JObj [("id", JStr id); ("success", JBool success); ("errors", JArr errors)]) ->
  createRecord sobject data m =
    (Return (JObj [("id", JStr id); ("success", JBool success);
                   ("errors", JArr errors)]), m2) /\
  forall returned,
    fst (createRecord sobject data m) = Return returned ->
    get "errors" returned = Some (JArr errors).
Proof.
  intros Hauth Hcall Hok H204 Hjson.
  assert (E : createRecord sobject data m =
              (Return (JObj [("id", JStr id); ("success", JBool success);
                             ("errors", JArr errors)]), m2)).
  { unfold_createRecord; unfold_request_default.
    unfold bind at 1. unfold bind at 1. unfold read_this at 1.
    rewrite (@request_success _ _ (maxRetries (this m)) _ _ _ _ _
               Hauth Hcall Hok H204).
    unfold response_json. rewrite Hjson. unfold ret, zod_parse.
    unfold SalesforceCreateResponseSchema.
    rewrite !parse_object_cons, parse_object_nil.
    cbn [assoc_get String.eqb Ascii.eqb Bool.eqb].
    cbn [parse option_map]. rewrite traverse_any. reflexivity. }
  split; [exact E|].
  intros returned Hret. rewrite E in Hret. simpl in Hret.
  injection Hret as <-. reflexivity.
Qed.

(** *** Runs with a token in the cache *)

(** One attempt made with a cached token that is still fresh and answered
    in time. *)
Lemma request_cached_attempt (endpoint : string) (options : RequestInit)
    (retries : Z) (m : Machine) (cached : TokenCache)
    (latency : Z) (response : Response) (rest : list Reply) :
  tokenCache (this m) = Some cached ->
  clock m < expiresAt cached ->
  network m = Responds latency response :: rest ->
  latency < requestTimeoutMs (this m) ->
  let m2 := after_call endpoint options (token_of cached) latency m in
  let again := request endpoint options (retries - 1) in
  let delay := 2 ^ (maxRetries (this m) - retries) * 1000 in
  request endpoint options retries m =
  if status response =? 401 then
    if retries >? 0 then again (with_tokenCache None m2)
    else (Throw (Error "Salesforce authentication failed after retries"),
          with_tokenCache None m2)
  else if (status response =? 429) && (retries >? 0) then again (after_wait delay m2)
  else if (status response >=? 500) && (retries >? 0) then again (after_wait delay m2)
  else if negb (ok response) then
    (Throw (Error (api_error_message JSON_parse response)), m2)
  else if status response =? 204 then (Return (JObj []), m2)
  else response_json JSON_parse response m2.
Proof.
  intros Hcache Hfresh Hnet Hlat m2 again delay.
  pose proof (authenticate_hit m Hcache Hfresh) as Hauth.
  pose proof (@resource_call_in_time endpoint options (token_of cached) m
                latency response rest Hnet Hlat) as Hcall.
  rewrite (@request_attempt endpoint options retries _ _ _ _ _ Hauth Hcall).
  reflexivity.
Qed.

(** A 429 met with budget left, in a run with a cached token: a wait, then
    the nested call, on a machine that differs by the call, the wait and
    the time both took. *)
Lemma request_cached_429 (endpoint : string) (options : RequestInit)
    (retries : Z) (m : Machine) (cached : TokenCache)
    (latency : Z) (response : Response) (rest : list Reply) :
  tokenCache (this m) = Some cached ->
  clock m < expiresAt cached ->
  network m = Responds latency response :: rest ->
  0 <= latency < requestTimeoutMs (this m) ->
  status response = 429 ->
  0 < retries ->
  let delay := 2 ^ (maxRetries (this m) - retries) * 1000 in
  exists m',
    request endpoint options retries m = request endpoint options (retries - 1) m' /\
    this m' = this m /\
    clock m' = clock m + latency + Z.max 0 delay /\
    network m' = rest /\
    waits m' = (waits m ++ [delay])%list /\
    resource_calls m' = S (resource_calls m).
Proof.
  intros Hcache Hfresh Hnet Hlat Hstatus Hr delay.
  exists (after_wait delay (after_call endpoint options (token_of cached) latency m)).
  split; [|split; [|split; [|split; [|split]]]].
  - rewrite (@request_cached_attempt endpoint options retries m cached
               latency response rest); try assumption; [|lia].
    cbv zeta. rewrite Hstatus.
    change (429 =? 401) with false. change (429 =? 429) with true. cbv iota.
    replace (retries >? 0) with true; [reflexivity|].
    symmetry. rewrite Z.gtb_ltb. apply Z.ltb_lt. exact Hr.
  - reflexivity.
  - simpl. lia.
  - simpl. rewrite Hnet. reflexivity.
  - unfold waits. simpl. rewrite !waits_of_app. simpl. rewrite app_nil_r. reflexivity.
  - unfold resource_calls. simpl. rewrite !filter_snoc, !length_app. simpl. lia.
Qed.

(** A 429 met without budget, in a run with a cached token. *)
Lemma request_cached_429_exhausted (endpoint : string) (options : RequestInit)
    (retries : Z) (m : Machine) (cached : TokenCache)
    (latency : Z) (response : Response) (rest : list Reply) :
  tokenCache (this m) = Some cached ->
  clock m < expiresAt cached ->
  network m = Responds latency response :: rest ->
  0 <= latency < requestTimeoutMs (this m) ->
  status response = 429 ->
  retries <= 0 ->
  exists m',
    request endpoint options retries m =
      (Throw (Error (api_error_message JSON_parse response)), m') /\
    waits m' = waits m /\
    resource_calls m' = S (resource_calls m).
Proof.
  intros Hcache Hfresh Hnet Hlat Hstatus Hr.
  exists (after_call endpoint options (token_of cached) latency m).
  split; [|split].
  - rewrite (@request_cached_attempt endpoint options retries m cached
               latency response rest); try assumption; [|lia].
    cbv zeta. unfold ok. rewrite Hstatus.
    replace (retries >? 0) with false; [reflexivity|].
    symmetry. rewrite Z.gtb_ltb. apply Z.ltb_ge. exact Hr.
  - unfold waits. simpl. rewrite waits_of_app. simpl. rewrite app_nil_r. reflexivity.
  - unfold resource_calls. simpl. rewrite filter_snoc, length_app. simpl. lia.
Qed.

(** C3.  A retry after a 429, after a status of 500 or more, or after a
    timeout is preceded by a wait of [2 ^ (maxRetries - retries) * 1000]
    milliseconds, [retries] being the budget left, out of the initial
    [maxRetries], when the failure came in.  So a client with [maxRetries = 3] that is answered 429 four times
    in a row waits 1000, 2000 and 4000 ms, in this order, and then fails. *)
Theorem request_backoff_delay (endpoint : string) (options : RequestInit)
    (retries : Z) (m m1 m2 : Machine) (token : string * string)
    (out : Outcome Response) :
  authenticate m = (Return token, m1) ->
  resource_call endpoint options token m1 = (out, m2) ->
  transient out ->
  0 < retries <= maxRetries (this m) ->
  let delay := 2 ^ (maxRetries (this m) - retries) * 1000 in
  request endpoint options retries m =
    request endpoint options (retries - 1) (after_wait delay m2) /\
  waits (after_wait delay m2) = (waits m2 ++ [delay])%list /\
  (forall (s : Machine) (cached : TokenCache)
          (l1 l2 l3 l4 : Z) (r1 r2 r3 r4 : Response) (rest : list Reply),
      maxRetries (this s) = 3 ->
      tokenCache (this s) = Some cached ->
      network s =
        Responds l1 r1 :: Responds l2 r2 :: Responds l3 r3 :: Responds l4 r4 :: rest ->
      status r1 = 429 /\ status r2 = 429 /\ status r3 = 429 /\ status r4 = 429 ->
      0 <= l1 < requestTimeoutMs (this s) /\ 0 <= l2 < requestTimeoutMs (this s) /\
      0 <= l3 < requestTimeoutMs (this s) /\ 0 <= l4 < requestTimeoutMs (this s) ->
      clock s + l1 + l2 + l3 + l4 + 7000 < expiresAt cached ->
      exists s',
        request_default endpoint options s =
          (Throw (Error (api_error_message JSON_parse r4)), s') /\
        waits s' = (waits s ++ [1000; 2000; 4000])%list /\
        resource_calls s' = (resource_calls s + 4)%nat).
Proof.
  intros Hauth Hcall Hout Hr delay.
  split; [|split].
  - apply request_backoff with (m1 := m1) (token := token) (out := out);
      try assumption. lia.
  - unfold waits, after_wait. simpl. rewrite waits_of_app. reflexivity.
  - clear. intros s cached l1 l2 l3 l4 r1 r2 r3 r4 rest
      Hmax Hcache Hnet (S1 & S2 & S3 & S4) (L1 & L2 & L3 & L4) Hfresh.
    unfold_request_default; unfold bind, read_this. rewrite Hmax.
    destruct (@request_cached_429 endpoint options 3 s cached l1 r1 _
                Hcache ltac:(lia) Hnet L1 S1 ltac:(lia))
      as (s1 & E1 & T1 & C1 & N1 & W1 & R1).
    rewrite Hmax in C1, W1. change (2 ^ (3 - 3) * 1000) with 1000 in C1, W1.
    destruct (@request_cached_429 endpoint options 2 s1 cached l2 r2 _
                ltac:(rewrite T1; exact Hcache) ltac:(lia) N1
                ltac:(rewrite T1; exact L2) S2 ltac:(lia))
      as (s2 & E2 & T2 & C2 & N2 & W2 & R2).
    rewrite T1, Hmax in C2, W2. change (2 ^ (3 - 2) * 1000) with 2000 in C2, W2.
    destruct (@request_cached_429 endpoint options 1 s2 cached l3 r3 _
                ltac:(rewrite T2, T1; exact Hcache) ltac:(lia) N2
                ltac:(rewrite T2, T1; exact L3) S3 ltac:(lia))
      as (s3 & E3 & T3 & C3 & N3 & W3 & R3).
    rewrite T2, T1, Hmax in C3, W3. change (2 ^ (3 - 1) * 1000) with 4000 in C3, W3.
    destruct (@request_cached_429_exhausted endpoint options 0 s3 cached l4 r4 _
                ltac:(rewrite T3, T2, T1; exact Hcache) ltac:(lia) N3
                ltac:(rewrite T3, T2, T1; exact L4) S4 ltac:(lia))
      as (s4 & E4 & W4 & R4).
    exists s4. split; [|split].
    + rewrite E1. change (3 - 1) with 2. rewrite E2. change (2 - 1) with 1.
      rewrite E3. exact E4.
    + rewrite W4, W3, W2, W1, <- !app_assoc. reflexivity.
    + lia.
Qed.

(** *** SOQL query *)

Lemma pages_served_latency (timeout : Z) (pages : list Page) :
  pages_served timeout pages -> 0 <= total_latency pages.
Proof.
  induction pages as [|p rest IH]; simpl; [intros []|].
  destruct rest as [|q rest].
  - intros (Hl & _). simpl. lia.
  - intros ((Hl & _) & Hrest). specialize (IH Hrest). simpl in *. lia.
Qed.

(** A page fetched with the cached token. *)
Lemma request_default_page (endpoint : string) (options : RequestInit)
    (m : Machine) (cached : TokenCache) (p : Page) (rest : list Reply)
    (more : bool) :
  tokenCache (this m) = Some cached ->
  clock m < expiresAt cached ->
  network m = reply_of p :: rest ->
  page_served (requestTimeoutMs (this m)) more p ->
  exists j result m',
    JSON_parse (text (snd p)) = Some j /\
    parse SalesforceQueryResponseSchema j = Some result /\
    has_more result = more /\
    request_default endpoint options m = (Return j, m') /\
    this m' = this m /\
    clock m' = clock m + fst p /\
    network m' = rest /\
    resource_calls m' = S (resource_calls m) /\
    token_calls m' = token_calls m.
Proof.
  intros Hcache Hfresh Hnet (Hlat & Hok & H204 & result & Hval & Hmore).
  unfold validated in Hval.
  destruct (JSON_parse (text (snd p))) as [j|] eqn:Hjson; [|discriminate Hval].
  exists j, result,
    (after_call endpoint options (token_of cached) (fst p) m).
  repeat split; try assumption.
  - unfold_request_default; unfold bind, read_this.
    pose proof (authenticate_hit m Hcache Hfresh) as Hauth.
    pose proof (@resource_call_in_time endpoint options (token_of cached) m
                  (fst p) (snd p) rest Hnet (proj2 Hlat)) as Hcall.
    rewrite (@request_success _ _ (maxRetries (this m)) _ _ _ _ _
               Hauth Hcall Hok H204).
    unfold response_json. rewrite Hjson. reflexivity.
  - simpl. lia.
  - simpl. rewrite Hnet. reflexivity.
  - unfold resource_calls. simpl. rewrite filter_snoc, length_app. simpl. lia.
  - unfold token_calls. simpl. rewrite filter_snoc, length_app. simpl. lia.
Qed.

Lemma query_loop_done (turns : nat) (records : list Json) (m : Machine) :
  query_loop turns records "" m = Some (Return records, m).
Proof. destruct turns; reflexivity. Qed.

Lemma next_url_of_last (result : Json) :
  has_more result = false ->
  (if truthy (get "done" result) then ""
   else if truthy (get "nextRecordsUrl" result)
        then as_string (get "nextRecordsUrl" result)
        else "") = "".
Proof.
  unfold has_more.
  destruct (truthy (get "done" result)); [reflexivity|].
  destruct (truthy (get "nextRecordsUrl" result)); [discriminate|reflexivity].
Qed.

Lemma next_url_of_more (j result : Json) :
  parse SalesforceQueryResponseSchema j = Some result ->
  has_more result = true ->
  (if truthy (get "done" result) then ""
   else if truthy (get "nextRecordsUrl" result)
        then as_string (get "nextRecordsUrl" result)
        else "") = as_string (get "nextRecordsUrl" result) /\
  as_string (get "nextRecordsUrl" result) <> "".
Proof.
  intros Hparse. unfold has_more.
  destruct (query_response_validated j Hparse) as [_ [Hnone | [url Hurl]]].
  - rewrite Hnone. simpl. rewrite Bool.andb_false_r. discriminate.
  - rewrite Hurl.
    destruct (truthy (get "done" result)); [discriminate|].
    simpl. destruct (String.eqb url "") eqn:E; [discriminate|].
    intros _. split; [reflexivity|]. apply String.eqb_neq. exact E.
Qed.

(** The loop of [query] on a result whose remaining pages are [pages]. *)
Lemma query_loop_pages (pages : list Page) :
  forall (turns : nat) (records : list Json) (nextUrl : string)
         (m : Machine) (cached : TokenCache) (rest : list Reply),
    nextUrl <> "" ->
    tokenCache (this m) = Some cached ->
    network m = (map reply_of pages ++ rest)%list ->
    pages_served (requestTimeoutMs (this m)) pages ->
    clock m + total_latency pages < expiresAt cached ->
    (List.length pages <= turns)%nat ->
    exists m',
      query_loop turns records nextUrl m =
        Some (Return (records ++ flat_map served_records pages)%list, m') /\
      resource_calls m' = (resource_calls m + List.length pages)%nat /\
      token_calls m' = token_calls m.
Proof.
  induction pages as [|p pages IH];
    intros turns records nextUrl m cached rest Hne Hcache Hnet Hserved Hfresh Hlen.
  - destruct Hserved.
  - destruct turns as [|turns]; [simpl in Hlen; lia|].
    cbn [query_loop]. cbv zeta.
    apply String.eqb_neq in Hne. rewrite Hne.
    pose proof (pages_served_latency _ _ Hserved) as Hpos.
    cbn [map app] in Hnet.
    cbn [pages_served] in Hserved.
    destruct pages as [|q pages].
    + destruct (@request_default_page
                  (replace ("/services/data/"
                            ++ template (apiVersion (config (this m)))) "" nextUrl)
                  no_options m cached p _ false Hcache
                  ltac:(unfold total_latency in Hfresh, Hpos;
                        simpl in Hfresh, Hpos; lia) Hnet Hserved)
        as (j & result & m1 & Hjson & Hparse & Hmore & Hreq & _ & _ & _ & Hr & Ht).
      rewrite Hreq, Hparse, (next_url_of_last _ Hmore), query_loop_done.
      exists m1. split; [|split].
      * unfold served_records at 1. simpl flat_map. rewrite Hjson, app_nil_r.
        destruct (query_response_validated j Hparse) as [-> _]. reflexivity.
      * simpl. lia.
      * exact Ht.
    + destruct Hserved as [Hp Hrest].
      pose proof (pages_served_latency _ _ Hrest) as Hpos'.
      assert (Hlat : 0 <= fst p) by (destruct Hp as [[? _] _]; assumption).
      change (total_latency (p :: q :: pages))
        with (fst p + total_latency (q :: pages)) in Hfresh.
      destruct (@request_default_page
                  (replace ("/services/data/"
                            ++ template (apiVersion (config (this m)))) "" nextUrl)
                  no_options m cached p _ true Hcache ltac:(lia) Hnet Hp)
        as (j & result & m1 & Hjson & Hparse & Hmore & Hreq & Hthis & Hclock & Hnet1
            & Hr & Ht).
      rewrite Hreq, Hparse.
      destruct (next_url_of_more j Hparse Hmore) as [-> Hnext].
      destruct (IH turns
                  (records ++ as_array (get "records" result))%list
                  (as_string (get "nextRecordsUrl" result)) m1 cached rest)
        as (m' & Hloop & Hr' & Ht').
      * exact Hnext.
      * rewrite Hthis. exact Hcache.
      * exact Hnet1.
      * rewrite Hthis. exact Hrest.
      * rewrite Hclock. lia.
      * simpl in Hlen |- *. lia.
      * exists m'. split; [|split].
        -- rewrite Hloop.
           change (flat_map served_records (p :: q :: pages))
             with (served_records p ++ flat_map served_records (q :: pages))%list.
           unfold served_records at 2. rewrite Hjson.
           destruct (query_response_validated j Hparse) as [-> _].
           rewrite app_assoc. reflexivity.
        -- rewrite Hr', Hr. simpl. lia.
        -- rewrite Ht', Ht. reflexivity.
Qed.

Lemma flat_map_length_sum {A B : Type} (f : A -> list B) (l : list A) :
  List.length (flat_map f l) = list_sum (map (fun x => List.length (f x)) l).
Proof.
  induction l as [|x l IH]; simpl; [reflexivity|].
  rewrite length_app, IH. reflexivity.
Qed.

(** C5.  A query with [fetchAll = true] whose result spans the pages of
    [pages], each served in time to a client with a fresh cached token,
    returns the records of all the pages, page after page and in the
    order the server gave them; the length of the result is the sum of
    the page sizes, and one HTTP call is made per page: a single one when
    the first page is the last. *)
Theorem query_concatenates_pages (turns : nat) (soql : string) (m : Machine)
    (cached : TokenCache) (pages : list Page) (rest : list Reply) :
  tokenCache (this m) = Some cached ->
  network m = (map reply_of pages ++ rest)%list ->
  pages_served (requestTimeoutMs (this m)) pages ->
  clock m + total_latency pages < expiresAt cached ->
  (List.length pages <= S turns)%nat ->
  exists m',
    query turns soql true m = Some (Return (flat_map served_records pages), m') /\
    List.length (flat_map served_records pages) =
      list_sum (map (fun p => List.length (served_records p)) pages) /\
    resource_calls m' = (resource_calls m + List.length pages)%nat /\
    token_calls m' = token_calls m.
Proof.
  intros Hcache Hnet Hserved Hfresh Hlen.
  destruct pages as [|p pages]; [destruct Hserved|].
  pose proof (pages_served_latency _ _ Hserved) as Hpos.
  cbn [map app] in Hnet. cbn [pages_served] in Hserved.
  unfold_query. cbv zeta.
  destruct pages as [|q pages].
  - destruct (@request_default_page ("/query/?q=" ++ encodeURIComponent soql)
                no_options m cached p _ false Hcache
                ltac:(unfold total_latency in Hfresh, Hpos;
                      simpl in Hfresh, Hpos; lia) Hnet Hserved)
      as (j & result & m1 & Hjson & Hparse & Hmore & Hreq & _ & _ & _ & Hr & Ht).
    rewrite Hreq, Hparse.
    change (true && negb (truthy (get "done" result))
            && truthy (get "nextRecordsUrl" result)) with (has_more result).
    rewrite Hmore. exists m1. repeat split.
    + unfold served_records. simpl flat_map. rewrite Hjson, app_nil_r.
      destruct (query_response_validated j Hparse) as [-> _]. reflexivity.
    + apply flat_map_length_sum.
    + simpl. lia.
    + exact Ht.
  - destruct Hserved as [Hp Hrest].
    pose proof (pages_served_latency _ _ Hrest) as Hpos'.
    assert (Hlat : 0 <= fst p) by (destruct Hp as [[? _] _]; assumption).
    change (total_latency (p :: q :: pages))
      with (fst p + total_latency (q :: pages)) in Hfresh.
    destruct (@request_default_page ("/query/?q=" ++ encodeURIComponent soql)
                no_options m cached p _ true Hcache ltac:(lia) Hnet Hp)
      as (j & result & m1 & Hjson & Hparse & Hmore & Hreq & Hthis & Hclock & Hnet1
          & Hr & Ht).
    rewrite Hreq, Hparse.
    change (true && negb (truthy (get "done" result))
            && truthy (get "nextRecordsUrl" result)) with (has_more result).
    rewrite Hmore.
    destruct (next_url_of_more j Hparse Hmore) as [_ Hnext].
    destruct (@query_loop_pages (q :: pages) turns
                (as_array (get "records" result))
                (as_string (get "nextRecordsUrl" result)) m1 cached rest)
      as (m' & Hloop & Hr' & Ht').
    + exact Hnext.
    + rewrite Hthis. exact Hcache.
    + exact Hnet1.
    + rewrite Hthis. exact Hrest.
    + rewrite Hclock. lia.
    + simpl in Hlen |- *. lia.
    + exists m'. repeat split.
      * rewrite Hloop.
        change (flat_map served_records (p :: q :: pages))
          with (served_records p ++ flat_map served_records (q :: pages))%list.
        unfold served_records at 2. rewrite Hjson.
        destruct (query_response_validated j Hparse) as [-> _]. reflexivity.
      * apply flat_map_length_sum.
      * rewrite Hr', Hr. simpl. lia.
      * rewrite Ht', Ht. reflexivity.
Qed.

End Properties.

(** ** Further properties *)

(** *** Object schemas with passthrough *)

Lemma assoc_get_app {A : Type} (k : string) (l1 l2 : list (string * A)) :
  assoc_get k (l1 ++ l2) =
  match assoc_get k l1 with
  | Some v => Some v
  | None => assoc_get k l2
  end.
Proof.
  induction l1 as [|[k' v] l1 IH]; simpl; [reflexivity|].
  destruct (String.eqb k k'); [reflexivity | exact IH].
Qed.

Lemma assoc_get_filter {A : Type} (keep : string -> bool) (k : string)
    (l : list (string * A)) :
  assoc_get k (filter (fun kv => keep (fst kv)) l) =
  if keep k then assoc_get k l else None.
Proof.
  induction l as [|[k' v] l IH]; simpl.
  - destruct (keep k); reflexivity.
  - destruct (keep k') eqn:Hk'; simpl.
    + destruct (String.eqb k k') eqn:E.
      * apply String.eqb_eq in E. subst k'. rewrite Hk'. reflexivity.
      * exact IH.
    + destruct (String.eqb k k') eqn:E.
      * apply String.eqb_eq in E. subst k'. rewrite Hk' in IH |- *. exact IH.
      * exact IH.
Qed.

Lemma parse_scalar (t : ZodType) (v v' : Json) :
  scalar t = true -> parse t v = Some v' -> v' = v /\ v <> JNull.
Proof.
  intros Hscalar H.
  destruct t as [ | | | | | |inner|]; try discriminate Hscalar.
  4: destruct inner; try discriminate Hscalar.
  all: destruct v; simpl in H; try discriminate H.
  all: injection H as <-; split; [reflexivity | discriminate].
Qed.

(** The fields an object schema of scalars keeps are those of the value
    that the shape names, with the values they had. *)
Lemma parse_object_fields (shape : list (string * ZodType))
    (props : list (string * Json)) :
  scalar_shape shape = true ->
  forall validated,
    parse (z_object shape) (JObj props) = Some validated ->
    exists fields,
      validated = JObj fields /\
      forall k, assoc_get k fields =
                if in_shape shape k then assoc_get k props else None.
Proof.
  induction shape as [|[k0 t0] shape IH]; intros Hshape validated Hparse.
  - rewrite parse_object_nil in Hparse. injection Hparse as <-.
    exists []. split; reflexivity.
  - simpl in Hshape. apply Bool.andb_true_iff in Hshape. destruct Hshape as [Ht0 Hshape].
    rewrite parse_object_cons in Hparse.
    assert (Hhead : forall k, in_shape ((k0, t0) :: shape) k =
                              if String.eqb k k0 then true else in_shape shape k).
    { intros k. unfold in_shape. simpl. destruct (String.eqb k k0); reflexivity. }
    destruct (assoc_get k0 props) as [v|] eqn:Hv.
    + destruct (parse t0 v) as [v'|] eqn:Hv'; [|discriminate Hparse].
      destruct (parse (z_object shape) (JObj props)) as [rest|] eqn:Hrest;
        [|discriminate Hparse].
      injection Hparse as <-.
      destruct (IH Hshape rest eq_refl) as (fields & -> & Hfields).
      destruct (parse_scalar t0 v Ht0 Hv') as [-> _].
      exists ((k0, v) :: fields). split; [reflexivity|].
      intros k. rewrite Hhead. simpl.
      destruct (String.eqb k k0) eqn:E; [|apply Hfields].
      apply String.eqb_eq in E. subst k. symmetry. exact Hv.
    + destruct (accepts_undefined t0); [|discriminate Hparse].
      destruct (IH Hshape validated Hparse) as (fields & -> & Hfields).
      exists fields. split; [reflexivity|].
      intros k. rewrite Hhead, Hfields.
      destruct (String.eqb k k0) eqn:E; [|reflexivity].
      apply String.eqb_eq in E. subst k. rewrite Hv.
      destruct (in_shape shape k0); reflexivity.
Qed.

Lemma parse_passthrough_fields (shape : list (string * ZodType))
    (record validated : Json) (k : string) :
  scalar_shape shape = true ->
  parse_passthrough shape record = Some validated ->
  get k validated = get k record.
Proof.
  intros Hshape. unfold parse_passthrough.
  destruct record as [ | | | | |props]; try discriminate.
  destruct (parse (z_object shape) (JObj props)) as [kept|] eqn:Hkept; [|discriminate].
  intros H. injection H as <-.
  destruct (parse_object_fields shape props Hshape Hkept) as (fields & -> & Hfields).
  cbn [get props_of]. rewrite assoc_get_app, Hfields.
  rewrite (assoc_get_filter (fun key => negb (in_shape shape key))).
  destruct (in_shape shape k); simpl; [destruct (assoc_get k props)|]; reflexivity.
Qed.

(** A value with [null] under a key of the shape does not pass. *)
Lemma parse_object_null (shape : list (string * ZodType))
    (props : list (string * Json)) (k : string) :
  scalar_shape shape = true ->
  in_shape shape k = true ->
  assoc_get k props = Some JNull ->
  parse (z_object shape) (JObj props) = None.
Proof.
  induction shape as [|[k0 t0] shape IH]; intros Hshape Hin Hnull.
  - discriminate Hin.
  - simpl in Hshape. apply Bool.andb_true_iff in Hshape. destruct Hshape as [Ht0 Hshape].
    rewrite parse_object_cons.
    unfold in_shape in Hin. simpl in Hin.
    destruct (String.eqb k k0) eqn:E.
    + apply String.eqb_eq in E. subst k0. rewrite Hnull.
      destruct (parse t0 JNull) as [v'|] eqn:Hv'; [|reflexivity].
      destruct (parse_scalar t0 JNull Ht0 Hv') as [_ Habsurd]. congruence.
    + assert (Hrest : parse (z_object shape) (JObj props) = None)
        by (apply IH; assumption).
      rewrite Hrest.
      destruct (assoc_get k0 props) as [v|].
      * destruct (parse t0 v); reflexivity.
      * destruct (accepts_undefined t0); reflexivity.
Qed.

Lemma parse_passthrough_Id (shape : list (string * ZodType))
    (record validated : Json) :
  scalar_shape (("Id", z_string) :: shape) = true ->
  parse_passthrough (("Id", z_string) :: shape) record = Some validated ->
  has_Id validated.
Proof.
  intros Hshape Hparse. unfold has_Id.
  rewrite (parse_passthrough_fields _ record "Id" Hshape Hparse).
  unfold parse_passthrough in Hparse.
  destruct record as [ | | | | |props]; try discriminate Hparse.
  rewrite parse_object_cons in Hparse. simpl.
  destruct (assoc_get "Id" props) as [v|]; [|discriminate Hparse].
  destruct v; try discriminate Hparse. eexists. reflexivity.
Qed.

Lemma traverse_none {A B : Type} (f : A -> option B) (l : list A) (x : A) :
  In x l -> f x = None -> traverse f l = None.
Proof.
  induction l as [|y l IH]; simpl; [intros []|].
  intros [-> | Hin] Hx.
  - rewrite Hx. reflexivity.
  - rewrite (IH Hin Hx). destruct (f y); reflexivity.
Qed.

Lemma traverse_forall {A B : Type} (f : A -> option B) (P : B -> Prop)
    (l : list A) (l' : list B) :
  (forall x y, f x = Some y -> P y) ->
  traverse f l = Some l' -> Forall P l' /\ List.length l' = List.length l.
Proof.
  intros Hf. revert l'. induction l as [|x l IH]; simpl; intros l' H.
  - injection H as <-. split; [constructor | reflexivity].
  - destruct (f x) as [y|] eqn:Hx; [|discriminate H].
    destruct (traverse f l) as [ys|]; [|discriminate H].
    injection H as <-. destruct (IH ys eq_refl) as [Hall Hlen].
    split; [constructor; eauto | simpl; congruence].
Qed.

Lemma sobject_schemas_scalar (shape : list (string * ZodType)) :
  In shape sobject_schemas -> scalar_shape shape = true.
Proof.
  intros [<- | [<- | [<- | [<- | []]]]]; reflexivity.
Qed.

Lemma sobject_schemas_Id (shape : list (string * ZodType)) :
  In shape sobject_schemas -> exists rest, shape = ("Id", z_string) :: rest.
Proof.
  intros [<- | [<- | [<- | [<- | []]]]]; eexists; reflexivity.
Qed.

(** X1.  A record that passes the validation of the Account, Contact,
    Opportunity or Task schema comes out with every field it came in
    with, declared in the schema or not, under the same key and with the
    same value. *)
Theorem sobject_validation_keeps_fields (shape : list (string * ZodType))
    (record validated : Json) (k : string) :
  In shape sobject_schemas ->
  parse_passthrough shape record = Some validated ->
  get k validated = get k record.
Proof.
  intros Hshape Hparse.
  apply parse_passthrough_fields with (shape := shape); [|exact Hparse].
  apply sobject_schemas_scalar. exact Hshape.
Qed.

(** X2.  A list of records in which some record has [null] under a key
    that the schema declares (a string or number field, optional or not)
    does not pass the validation of the Account, Contact, Opportunity or
    Task schema: the method that queried it throws a [ZodError]. *)
Theorem sobject_validation_rejects_null (shape : list (string * ZodType))
    (records : list Json) (record : Json) (k : string) (m : Machine) :
  In shape sobject_schemas ->
  In record records ->
  in_shape shape k = true ->
  get k record = Some JNull ->
  parse_array shape records = None /\
  validate_records shape (Some (Return records, m)) = Some (Throw ZodError, m).
Proof.
  intros Hshape Hin Hkey Hnull.
  assert (Hrecord : parse_passthrough shape record = None).
  { unfold parse_passthrough. destruct record as [ | | | | |props]; try reflexivity.
    rewrite (parse_object_null shape props k); try assumption; [reflexivity|].
    apply sobject_schemas_scalar. exact Hshape. }
  assert (Harray : parse_array shape records = None).
  { unfold parse_array. apply traverse_none with (x := record); assumption. }
  split; [exact Harray|].
  unfold validate_records. rewrite Harray. reflexivity.
Qed.

Lemma validate_records_Id (shape : list (string * ZodType))
    (queried : option (Outcome (list Json) * Machine))
    (validated : list Json) (m : Machine) :
  In shape sobject_schemas ->
  validate_records shape queried = Some (Return validated, m) ->
  Forall has_Id validated /\
  exists records,
    queried = Some (Return records, m) /\
    List.length validated = List.length records.
Proof.
  intros Hshape. unfold validate_records.
  destruct queried as [[[records|e] m1]|]; try discriminate.
  destruct (parse_array shape records) as [checked|] eqn:Harray; [|discriminate].
  intros H. injection H as <- <-.
  destruct (@sobject_schemas_Id shape Hshape) as [rest Hrest].
  unfold parse_array in Harray.
  pose proof (@sobject_schemas_scalar shape Hshape) as Hscalar.
  rewrite Hrest in Hscalar, Harray.
  destruct (@traverse_forall _ _ _ has_Id records checked
              (fun x y => @parse_passthrough_Id rest x y Hscalar) Harray)
    as [Hall Hlen].
  split; [exact Hall|]. exists records. split; [reflexivity | exact Hlen].
Qed.

(** *** Escaping of the search term *)



(** *** Configuration from the environment *)

(** X4.  [configFromEnv] needs [SF_CLIENT_ID], then [SF_USERNAME], then a
    key, each set and not empty, and complains about the first one that
    is missing, in this order, whatever the other variables hold. *)
Theorem configFromEnv_required (env : string -> option string)
    (readFileSync : string -> JsError + string) :
  (nonempty (env "SF_CLIENT_ID") = None ->
   configFromEnv env readFileSync =
     inl (Error "SF_CLIENT_ID environment variable is required")) /\
  (nonempty (env "SF_CLIENT_ID") <> None ->
   nonempty (env "SF_USERNAME") = None ->
   configFromEnv env readFileSync =
     inl (Error "SF_USERNAME environment variable is required")) /\
  (nonempty (env "SF_CLIENT_ID") <> None ->
   nonempty (env "SF_USERNAME") <> None ->
   nonempty (env "SF_PRIVATE_KEY") = None ->
   nonempty (env "SF_PRIVATE_KEY_PATH") = None ->
   configFromEnv env readFileSync =
     inl (Error "Either SF_PRIVATE_KEY or SF_PRIVATE_KEY_PATH is required")).
Proof.
  unfold configFromEnv. cbv zeta. repeat split.
  - intros ->. reflexivity.
  - intros Hid ->. destruct (nonempty (env "SF_CLIENT_ID")); [reflexivity | congruence].
  - intros Hid Huser -> ->.
    destruct (nonempty (env "SF_CLIENT_ID")); [|congruence].
    destruct (nonempty (env "SF_USERNAME")); [reflexivity | congruence].
Qed.

(** X5.  When [SF_PRIVATE_KEY] is set and not empty it is the key, and the
    file system plays no part: the result is the same whatever a read of
    [SF_PRIVATE_KEY_PATH] would give. *)
Theorem configFromEnv_key_precedence (env : string -> option string)
    (readFileSync readFileSync' : string -> JsError + string) (key : string) :
  nonempty (env "SF_PRIVATE_KEY") = Some key ->
  configFromEnv env readFileSync = configFromEnv env readFileSync' /\
  forall c, configFromEnv env readFileSync = inr c -> privateKey c = key.
Proof.
  intros Hkey. unfold configFromEnv. cbv zeta. rewrite Hkey.
  split; [reflexivity|].
  destruct (nonempty (env "SF_CLIENT_ID")); [|discriminate].
  destruct (nonempty (env "SF_USERNAME")); [|discriminate].
  intros c H. injection H as <-. reflexivity.
Qed.

Lemma nonempty_some (x : option string) (value : string) :
  nonempty x = Some value -> x = Some value /\ value <> "".
Proof.
  unfold nonempty. destruct x as [v|]; [|discriminate].
  destruct (String.eqb v "") eqn:E; [discriminate|].
  intros H. injection H as <-. split; [reflexivity|]. apply String.eqb_neq. exact E.
Qed.

(** X6.  A configuration that [configFromEnv] returns has the client id
    and the username of the environment, both not empty, an instance URL
    that is not empty, and always the login URL and API version of
    [config.ts]; a client constructed from it uses it as it is, no default
    of the constructor takes part. *)
Theorem configFromEnv_result (env : string -> option string)
    (readFileSync : string -> JsError + string) (c : SalesforceConfig) :
  configFromEnv env readFileSync = inr c ->
  env "SF_CLIENT_ID" = Some (clientId c) /\ clientId c <> "" /\
  env "SF_USERNAME" = Some (username c) /\ username c <> "" /\
  (exists url, cfg_instanceUrl c = Some url /\ url <> "") /\
  loginUrl c = Some SALESFORCE_LOGIN_URL /\
  apiVersion c = Some DEFAULT_API_VERSION /\
  forall ttl timeout retries,
    config (constructor (mkOptions c ttl timeout retries)) = c.
Proof.
  unfold configFromEnv. cbv zeta.
  destruct (nonempty (env "SF_CLIENT_ID")) as [id|] eqn:Hid; [|discriminate].
  destruct (nonempty (env "SF_USERNAME")) as [user|] eqn:Huser; [|discriminate].
  apply nonempty_some in Hid, Huser. destruct Hid as [Hid Hid'], Huser as [Huser Huser'].
  match goal with |- match ?found with _ => _ end = _ -> _ =>
    destruct found as [e|key] end; [discriminate|].
  intros H. injection H as <-. simpl.
  repeat split; try assumption.
  exists (match nonempty (env "SF_INSTANCE_URL") with
          | Some url => url
          | None => HUBZONE_INSTANCE_URL
          end).
  split; [reflexivity|].
  destruct (nonempty (env "SF_INSTANCE_URL")) as [url|] eqn:Hurl.
  - apply nonempty_some in Hurl. apply Hurl.
  - discriminate.
Qed.

Section Coverage.

Variable JSON_parse : string -> option Json.
Variable JSON_stringify : Json -> string.
Variable encodeURIComponent : string -> string.
Variable URLSearchParams_toString : list (string * string) -> string.
Variable jwt_sign : JwtPayload -> string -> JsError + string.

Local Abbreviation authenticate := (authenticate JSON_parse URLSearchParams_toString jwt_sign).
Local Abbreviation request := (request JSON_parse URLSearchParams_toString jwt_sign).
Local Abbreviation request_default :=
  (request_default JSON_parse URLSearchParams_toString jwt_sign).
Local Abbreviation query :=
  (query JSON_parse encodeURIComponent URLSearchParams_toString jwt_sign).
Local Abbreviation query_loop := (query_loop JSON_parse URLSearchParams_toString jwt_sign).
Local Abbreviation createRecord :=
  (createRecord JSON_parse JSON_stringify URLSearchParams_toString jwt_sign).
Local Abbreviation getRecord := (getRecord JSON_parse URLSearchParams_toString jwt_sign).
Local Abbreviation updateRecord :=
  (updateRecord JSON_parse JSON_stringify URLSearchParams_toString jwt_sign).
Local Abbreviation deleteRecord :=
  (deleteRecord JSON_parse URLSearchParams_toString jwt_sign).
Local Abbreviation upsertRecord :=
  (upsertRecord JSON_parse JSON_stringify URLSearchParams_toString jwt_sign).
Local Abbreviation getAccounts :=
  (getAccounts JSON_parse encodeURIComponent URLSearchParams_toString jwt_sign).
Local Abbreviation getContacts :=
  (getContacts JSON_parse encodeURIComponent URLSearchParams_toString jwt_sign).
Local Abbreviation getOpportunities :=
  (getOpportunities JSON_parse encodeURIComponent URLSearchParams_toString jwt_sign).
Local Abbreviation getTasks :=
  (getTasks JSON_parse encodeURIComponent URLSearchParams_toString jwt_sign).
Local Abbreviation searchAccounts :=
  (searchAccounts JSON_parse encodeURIComponent URLSearchParams_toString jwt_sign).
Local Abbreviation served_records := (served_records JSON_parse).
Local Abbreviation page_served := (page_served JSON_parse).
Local Abbreviation validated := (validated JSON_parse).
Local Abbreviation validated_token := (validated_token JSON_parse).

(** *** Authentication *)

(** [authenticate] when the cache does not answer, step by step. *)
Lemma authenticate_miss (m : Machine) :
  fresh_token (tokenCache (this m)) (clock m) = None ->
  authenticate m =
  match jwt_sign (assertion_payload m) (privateKey (config (this m))) with
  | inl e => (Throw e, m)
  | inr assertion =>
      let called :=
        record_event (token_call m (URLSearchParams_toString (grant_params assertion))) m in
      match network m with
      | [] => (Throw (TypeError "fetch failed"), called)
      | Rejects latency e :: _ => (Throw e, elapse latency (consume_reply called))
      | Responds latency response :: _ =>
          let m1 := elapse latency (consume_reply called) in
          if negb (ok response) then
            (Throw (Error ("Salesforce authentication failed: " ++ text response)), m1)
          else
            match JSON_parse (text response) with
            | None => (Throw SyntaxError, m1)
            | Some json =>
                match parse SalesforceTokenResponseSchema json with
                | None => (Throw ZodError, m1)
                | Some data =>
                    (Return (token_in data),
                     with_tokenCache
                       (Some {| accessToken := fst (token_in data);
                                instanceUrl := snd (token_in data);
                                expiresAt := clock m1 + tokenCacheTtlMs (this m) |})
                       m1)
                end
            end
      end
  end.
Proof.
  intros Hmiss.
  unfold_authenticate; unfold_generateJwtAssertion. unfold_ops. cbv beta.
  rewrite Hmiss. unfold assertion_payload, token_call, grant_params, token_in.
  destruct (jwt_sign _ _) as [e|assertion]; [reflexivity|].
  cbn [network record_event].
  destruct (network m) as [|[latency response|latency e] rest]; try reflexivity.
  cbv zeta.
  destruct (negb (ok response)); [reflexivity|].
  unfold ret, throw.
  destruct (JSON_parse (text response)) as [json|]; [|reflexivity].
  cbv beta iota.
  destruct (parse SalesforceTokenResponseSchema json) as [data|]; reflexivity.
Qed.

(** A cached token is of no use from the instant it expires on. *)
Lemma fresh_token_stale (cache : option TokenCache) (now : Z) :
  cache = None \/ (exists cached, cache = Some cached /\ expiresAt cached <= now) ->
  fresh_token cache now = None.
Proof.
  intros [-> | (cached & -> & Hexpired)]; [reflexivity|].
  unfold fresh_token. replace (now <? expiresAt cached) with false; [reflexivity|].
  symmetry. apply Z.ltb_ge. exact Hexpired.
Qed.

(** X7.  When the cache is empty or its token has expired and the
    assertion cannot be signed, [authenticate] throws the error of the
    signer and nothing else happens: no call, no change of the cache.  A
    request started then fails with that same error whatever its retry
    budget, without any call. *)
Theorem authenticate_signing_failure (m : Machine) (e : JsError) :
  tokenCache (this m) = None \/
  (exists cached, tokenCache (this m) = Some cached /\ expiresAt cached <= clock m) ->
  jwt_sign (assertion_payload m) (privateKey (config (this m))) = inl e ->
  authenticate m = (Throw e, m) /\
  forall endpoint options retries,
    request endpoint options retries m = (Throw e, m).
Proof.
  intros Hstale Hsign.
  assert (Hauth : authenticate m = (Throw e, m)).
  { rewrite (@authenticate_miss m (@fresh_token_stale _ _ Hstale)), Hsign. reflexivity. }
  split; [exact Hauth|].
  intros endpoint options retries.
  exact (@request_authentication_failure JSON_parse URLSearchParams_toString jwt_sign
           endpoint options retries m m e Hauth).
Qed.

(** X8.  When the token endpoint answers the exchange with a status that
    is not a success, [authenticate] throws an authentication error whose
    message ends with the body of the answer, after that one call and
    without touching the cache; a request started then fails with that
    error whatever its retry budget and never calls the resource
    endpoint. *)
Theorem authenticate_rejected_exchange (m : Machine) (assertion : string)
    (latency : Z) (response : Response) (rest : list Reply) :
  tokenCache (this m) = None \/
  (exists cached, tokenCache (this m) = Some cached /\ expiresAt cached <= clock m) ->
  jwt_sign (assertion_payload m) (privateKey (config (this m))) = inr assertion ->
  network m = Responds latency response :: rest ->
  ok response = false ->
  let raised := Error ("Salesforce authentication failed: " ++ text response) in
  let m' :=
    elapse latency
      (consume_reply
         (record_event
            (token_call m (URLSearchParams_toString (grant_params assertion))) m)) in
  authenticate m = (Throw raised, m') /\
  error_class raised = AuthenticationError /\
  tokenCache (this m') = tokenCache (this m) /\
  token_calls m' = S (token_calls m) /\
  forall endpoint options retries,
    request endpoint options retries m = (Throw raised, m') /\
    resource_calls m' = resource_calls m.
Proof.
  intros Hstale Hsign Hnet Hok raised m'.
  assert (Hauth : authenticate m = (Throw raised, m')).
  { rewrite (@authenticate_miss m (@fresh_token_stale _ _ Hstale)), Hsign.
    cbv zeta. rewrite Hnet, Hok. reflexivity. }
  split; [exact Hauth|]. split; [reflexivity|]. split; [reflexivity|].
  split.
  - unfold token_calls, m', token_call. simpl.
    rewrite filter_snoc, length_app. simpl. lia.
  - intros endpoint options retries. split.
    + exact (@request_authentication_failure JSON_parse URLSearchParams_toString
               jwt_sign endpoint options retries m m' raised Hauth).
    + unfold resource_calls, m', token_call. simpl.
      rewrite filter_snoc, length_app. simpl. lia.
Qed.

(** X9.  A token that [authenticate] returns when the cache is empty or
    its token has expired, the instant of expiry included, was obtained
    by exactly one call: a POST to the token endpoint of the login URL,
    whose form carries the JWT bearer grant type and an assertion signed
    for the client id, the username and the login URL, expiring 300
    seconds after the current second.  The token is the one the answer
    holds, and the resource endpoint is not called. *)
Theorem authenticate_exchange_call (m m' : Machine) (token : string * string) :
  tokenCache (this m) = None \/
  (exists cached, tokenCache (this m) = Some cached /\ expiresAt cached <= clock m) ->
  authenticate m = (Return token, m') ->
  exists assertion latency response rest data,
    jwt_sign (assertion_payload m) (privateKey (config (this m))) = inr assertion /\
    network m = Responds latency response :: rest /\
    trace m' =
      (trace m ++ [token_call m (URLSearchParams_toString (grant_params assertion))])%list /\
    network m' = rest /\
    validated_token response = Some data /\
    token = token_in data.
Proof.
  intros Hstale. rewrite (@authenticate_miss m (@fresh_token_stale _ _ Hstale)).
  destruct (jwt_sign _ _) as [e|assertion]; [discriminate|].
  cbv zeta.
  destruct (network m) as [|[latency response|latency e] rest] eqn:Hnet;
    try discriminate.
  destruct (negb (ok response)); [discriminate|].
  destruct (JSON_parse (text response)) as [json|] eqn:Hjson; [|discriminate].
  destruct (parse SalesforceTokenResponseSchema json) as [data|] eqn:Hdata;
    [|discriminate].
  intros H. injection H as <- <-.
  exists assertion, latency, response, rest, data.
  repeat split; try reflexivity.
  - simpl. rewrite Hnet. reflexivity.
  - unfold_validated_token. rewrite Hjson. exact Hdata.
Qed.

(** *** Generic request *)

Lemma resource_call_trace (endpoint : string) (options : RequestInit)
    (token : string * string) (m : Machine) :
  trace (snd (resource_call endpoint options token m)) =
  (trace m ++ [resource_event m endpoint options token])%list.
Proof.
  unfold resource_call, resource_event. unfold_ops. cbv beta.
  repeat (break_match; simpl); reflexivity.
Qed.

(** A reply that does not come before the timer of the request fires is
    lost: the call is aborted when the timer fires. *)
Lemma resource_call_aborted (endpoint : string) (options : RequestInit)
    (token : string * string) (m : Machine) (reply : Reply) (rest : list Reply) :
  network m = reply :: rest ->
  requestTimeoutMs (this m) <= latency_of reply ->
  resource_call endpoint options token m =
  (Throw AbortError, after_call endpoint options token (requestTimeoutMs (this m)) m).
Proof.
  intros Hnet Hlate. unfold resource_call, after_call. unfold_ops. cbv beta.
  simpl network. rewrite Hnet.
  apply Z.ltb_ge in Hlate. rewrite Hlate. reflexivity.
Qed.

(** X10.  A reply that takes [requestTimeoutMs] or longer counts as a
    timeout whatever it holds, a success included.  With no retry budget
    the request then fails with the timeout error; with budget it waits
    [2 ^ (maxRetries - retries) * 1000] ms and tries again with one unit
    less. *)
Theorem request_times_out (endpoint : string) (options : RequestInit)
    (retries : Z) (m m1 : Machine) (token : string * string)
    (reply : Reply) (rest : list Reply) :
  authenticate m = (Return token, m1) ->
  network m1 = reply :: rest ->
  requestTimeoutMs (this m1) <= latency_of reply ->
  retries <= maxRetries (this m1) ->
  let m2 := after_call endpoint options token (requestTimeoutMs (this m1)) m1 in
  let raised := Error "Salesforce request timeout after retries" in
  (retries <= 0 -> request endpoint options retries m = (Throw raised, m2)) /\
  error_class raised = TimeoutError /\
  (0 < retries ->
   request endpoint options retries m =
   request endpoint options (retries - 1)
     (after_wait (2 ^ (maxRetries (this m1) - retries) * 1000) m2)).
Proof.
  intros Hauth Hnet Hlate Hmax m2 raised.
  pose proof (@resource_call_aborted endpoint options token m1 reply rest Hnet Hlate)
    as Hcall.
  pose proof (@request_attempt JSON_parse URLSearchParams_toString jwt_sign
                endpoint options retries m m1 m2 token (Throw AbortError) Hauth Hcall)
    as Hstep.
  cbv zeta iota in Hstep.
  change (String.eqb (name AbortError) "AbortError") with true in Hstep.
  cbv iota in Hstep.
  split; [|split; [reflexivity|]].
  - intros Hr. rewrite Hstep.
    replace (retries >? 0) with false; [reflexivity|].
    symmetry. rewrite Z.gtb_ltb. apply Z.ltb_ge. exact Hr.
  - intros Hr. rewrite Hstep.
    replace (retries >? 0) with true; [reflexivity|].
    symmetry. rewrite Z.gtb_ltb. apply Z.ltb_lt. exact Hr.
Qed.

(** X11.  When the call of an attempt is rejected by anything but the
    abort of the timeout, a network failure for one, the request throws
    that very error at once: it is not retried, whatever the budget, and
    exactly one call was made to the resource endpoint. *)
Theorem request_network_error (endpoint : string) (options : RequestInit)
    (retries : Z) (m m1 m2 : Machine) (token : string * string) (error : JsError) :
  authenticate m = (Return token, m1) ->
  resource_call endpoint options token m1 = (Throw error, m2) ->
  name error <> "AbortError" ->
  request endpoint options retries m = (Throw error, m2) /\
  resource_calls m2 = S (resource_calls m).
Proof.
  intros Hauth Hcall Hname.
  rewrite (@request_attempt JSON_parse URLSearchParams_toString jwt_sign
             endpoint options retries m m1 m2 token (Throw error) Hauth Hcall).
  cbv zeta iota. apply String.eqb_neq in Hname. rewrite Hname.
  split; [reflexivity|].
  pose proof (@authenticate_calls JSON_parse URLSearchParams_toString jwt_sign m) as Ha.
  rewrite Hauth in Ha. simpl in Ha.
  pose proof (resource_call_calls endpoint options token m1) as Hc.
  rewrite Hcall in Hc. simpl in Hc. lia.
Qed.

(** What one attempt of [request] does before the request either ends or
    nests its next call. *)
Lemma request_one_attempt (endpoint : string) (options : RequestInit)
    (retries : Z) (m : Machine) :
  exists m2,
    same_settings m m2 /\
    (token_calls m2 <= token_calls m + 1)%nat /\
    waits m2 = waits m /\
    (snd (request endpoint options retries m) = m2 \/
     snd (request endpoint options retries m) = with_tokenCache None m2 \/
     (0 < retries /\
      (snd (request endpoint options retries m) =
         snd (request endpoint options (retries - 1) (with_tokenCache None m2)) \/
       exists delay,
         snd (request endpoint options retries m) =
           snd (request endpoint options (retries - 1) (after_wait delay m2))))).
Proof.
  pose proof (@authenticate_effect JSON_parse URLSearchParams_toString jwt_sign m) as He.
  pose proof (@authenticate_calls JSON_parse URLSearchParams_toString jwt_sign m) as Ha.
  destruct (authenticate m) as [[token|e] m1] eqn:Hauth; simpl in Ha.
  - assert (Hsettings : same_settings m m1).
    { destruct He as [-> | (url & init & _ & H1 & H2 & H3 & H4 & _)];
        unfold same_settings; auto. }
    assert (Hwaits : waits m1 = waits m).
    { destruct He as [-> | (url & init & Ht & _)]; [reflexivity|].
      unfold waits. rewrite Ht, waits_of_app. simpl. apply app_nil_r. }
    pose proof (resource_call_calls endpoint options token m1) as Hc.
    pose proof (resource_call_trace endpoint options token m1) as Ht.
    destruct (resource_call endpoint options token m1) as [out m2] eqn:Hcall.
    simpl in Hc, Ht. destruct Hc as (_ & Htok & Hthis).
    exists m2. split; [|split; [|split]].
    + unfold same_settings in *. rewrite Hthis. exact Hsettings.
    + lia.
    + unfold waits. rewrite Ht, waits_of_app. simpl. rewrite app_nil_r. exact Hwaits.
    + rewrite (@request_attempt JSON_parse URLSearchParams_toString jwt_sign
                 endpoint options retries m m1 m2 token out Hauth Hcall).
      cbv zeta.
      assert (Hpos : (retries >? 0) = true -> 0 < retries).
      { intros H. rewrite Z.gtb_ltb in H. apply Z.ltb_lt. exact H. }
      destruct out as [response|error].
      * destruct (status response =? 401).
        { destruct (retries >? 0) eqn:Hgt; [|right; left; reflexivity].
          right. right. split; [auto|]. left. reflexivity. }
        destruct (retries >? 0) eqn:Hgt;
          rewrite ?Bool.andb_true_r, ?Bool.andb_false_r.
        -- destruct (status response =? 429).
           { right. right. split; [auto|]. right. eexists. reflexivity. }
           destruct (status response >=? 500).
           { right. right. split; [auto|]. right. eexists. reflexivity. }
           left. destruct (negb (ok response)); [reflexivity|].
           destruct (status response =? 204); [reflexivity|].
           unfold response_json. destruct (JSON_parse (text response)); reflexivity.
        -- left. destruct (negb (ok response)); [reflexivity|].
           destruct (status response =? 204); [reflexivity|].
           unfold response_json. destruct (JSON_parse (text response)); reflexivity.
      * destruct (String.eqb (name error) "AbortError"); [|left; reflexivity].
        destruct (retries >? 0) eqn:Hgt; [|left; reflexivity].
        right. right. split; [auto|]. right. eexists. reflexivity.
  - exists m1. split; [|split; [|split]].
    + destruct He as [-> | (url & init & _ & H1 & H2 & H3 & H4 & _)];
        unfold same_settings; auto.
    + lia.
    + destruct He as [-> | (url & init & Ht & _)]; [reflexivity|].
      unfold waits. rewrite Ht, waits_of_app. simpl. apply app_nil_r.
    + left.
      rewrite (@request_authentication_failure JSON_parse URLSearchParams_toString
                 jwt_sign endpoint options retries m m1 e Hauth).
      reflexivity.
Qed.

Lemma request_effects (endpoint : string) (options : RequestInit) (n : nat) :
  forall (retries : Z) (m : Machine),
    Z.to_nat retries = n ->
    let m' := snd (request endpoint options retries m) in
    same_settings m m' /\
    (token_calls m' <= token_calls m + S n)%nat /\
    (List.length (waits m') <= List.length (waits m) + n)%nat.
Proof.
  induction n as [|n IH]; intros retries m Hn m'; subst m';
    destruct (request_one_attempt endpoint options retries m)
      as (m2 & Hs & Ht & Hw & Hend).
  - destruct Hend as [-> | [-> | [Hpos _]]]; [| |lia].
    + rewrite Hw. repeat split; try apply Hs; lia.
    + change (waits (with_tokenCache None m2)) with (waits m2).
      change (token_calls (with_tokenCache None m2)) with (token_calls m2).
      rewrite Hw. repeat split; try apply Hs; lia.
  - destruct Hend as [-> | [-> | [Hpos [-> | [delay ->]]]]].
    + rewrite Hw. repeat split; try apply Hs; lia.
    + change (waits (with_tokenCache None m2)) with (waits m2).
      change (token_calls (with_tokenCache None m2)) with (token_calls m2).
      rewrite Hw. repeat split; try apply Hs; lia.
    + destruct (IH (retries - 1) (with_tokenCache None m2) ltac:(lia))
        as (Hs' & Ht' & Hw').
      change (waits (with_tokenCache None m2)) with (waits m2) in Hw'.
      change (token_calls (with_tokenCache None m2)) with (token_calls m2) in Ht'.
      rewrite Hw in Hw'.
      unfold same_settings in *. simpl in Hs'.
      repeat split; try lia; try (etransitivity; [apply Hs'|apply Hs]).
    + destruct (IH (retries - 1) (after_wait delay m2) ltac:(lia))
        as (Hs' & Ht' & Hw').
      assert (Hwd : waits (after_wait delay m2) = (waits m2 ++ [delay])%list).
      { unfold waits, after_wait. simpl. rewrite waits_of_app. reflexivity. }
      assert (Htd : token_calls (after_wait delay m2) = token_calls m2).
      { unfold token_calls, after_wait. simpl. rewrite filter_snoc. simpl.
        rewrite app_nil_r. reflexivity. }
      rewrite Hwd, length_app, Hw in Hw'. simpl in Hw'. rewrite Htd in Ht'.
      unfold same_settings in *. simpl in Hs'.
      repeat split; try lia; try (etransitivity; [apply Hs'|apply Hs]).
Qed.

(** X12.  A request started with budget [retries >= 0] makes at most
    [retries + 1] calls to the token endpoint and at most [retries] waits,
    and it leaves the settings of the client (configuration, cache TTL,
    timeout, retry budget) as they were: of the client only the token
    cache can change. *)
Theorem request_bounded_effects (endpoint : string) (options : RequestInit)
    (retries : Z) (m : Machine) :
  0 <= retries ->
  let m' := snd (request endpoint options retries m) in
  Z.of_nat (token_calls m') <= Z.of_nat (token_calls m) + retries + 1 /\
  Z.of_nat (List.length (waits m')) <= Z.of_nat (List.length (waits m)) + retries /\
  same_settings m m'.
Proof.
  intros Hr m'.
  destruct (@request_effects endpoint options (Z.to_nat retries) retries m eq_refl)
    as (Hs & Ht & Hw).
  fold m' in Hs, Ht, Hw. repeat split; try apply Hs; lia.
Qed.

(** X13.  A 401 is invisible to the caller when the retry goes through.
    A request made with a cached token and answered 401, with budget
    left, drops the token, fetches a new one from the token endpoint and
    repeats the call with the new access token on the new instance URL;
    when that call succeeds the caller gets its body, and the cache holds
    the new token.  Three calls were made in all: resource, token,
    resource. *)
Theorem request_recovers_from_401 (endpoint : string) (options : RequestInit)
    (retries : Z) (m : Machine) (cached : TokenCache)
    (l1 l2 l3 : Z) (r1 answer r3 : Response) (rest : list Reply)
    (assertion : string) (data j : Json) :
  tokenCache (this m) = Some cached ->
  clock m < expiresAt cached ->
  network m = Responds l1 r1 :: Responds l2 answer :: Responds l3 r3 :: rest ->
  0 < retries ->
  0 <= l1 < requestTimeoutMs (this m) ->
  0 <= l2 ->
  l3 < requestTimeoutMs (this m) ->
  status r1 = 401 ->
  jwt_sign
    (assertion_payload
       (with_tokenCache None (after_call endpoint options (token_of cached) l1 m)))
    (privateKey (config (this m))) = inr assertion ->
  ok answer = true ->
  validated_token answer = Some data ->
  ok r3 = true ->
  status r3 <> 204 ->
  JSON_parse (text r3) = Some j ->
  exists m',
    request endpoint options retries m = (Return j, m') /\
    trace m' =
      (trace m ++
       [ resource_event m endpoint options (token_of cached);
         token_call m (URLSearchParams_toString (grant_params assertion));
         resource_event m endpoint options (token_in data) ])%list /\
    tokenCache (this m') =
      Some {| accessToken := fst (token_in data);
              instanceUrl := snd (token_in data);
              expiresAt := clock m + l1 + l2 + tokenCacheTtlMs (this m) |} /\
    network m' = rest.
Proof.
  intros Hcache Hfresh Hnet Hr Hl1 Hl2 Hl3 H401 Hsign Hok Hdata Hok3 H204 Hjson.
  set (m2 := after_call endpoint options (token_of cached) l1 m) in *.
  set (cleared := with_tokenCache None m2) in *.
  (* the first attempt *)
  rewrite (@request_cached_attempt JSON_parse URLSearchParams_toString jwt_sign
             endpoint options retries m cached l1 r1 _ Hcache Hfresh Hnet (proj2 Hl1)).
  cbv zeta. rewrite H401. change (401 =? 401) with true. cbv iota.
  replace (retries >? 0) with true
    by (symmetry; rewrite Z.gtb_ltb; apply Z.ltb_lt; exact Hr).
  fold m2. fold cleared.
  (* the new token *)
  assert (Hauth : exists m3,
             authenticate cleared = (Return (token_in data), m3) /\
             network m3 = Responds l3 r3 :: rest /\
             this m3 =
               this (with_tokenCache
                       (Some {| accessToken := fst (token_in data);
                                instanceUrl := snd (token_in data);
                                expiresAt :=
                                  clock m + l1 + l2 + tokenCacheTtlMs (this m) |}) m) /\
             trace m3 =
               (trace m ++
                [ resource_event m endpoint options (token_of cached);
                  token_call m (URLSearchParams_toString (grant_params assertion)) ])%list).
  { eexists. split; [|split; [|split]].
    - rewrite (@authenticate_miss cleared eq_refl).
      change (privateKey (config (this cleared))) with (privateKey (config (this m))).
      rewrite Hsign. cbv zeta.
      assert (Hnet' : network cleared = Responds l2 answer :: Responds l3 r3 :: rest)
        by (unfold cleared, m2; simpl; rewrite Hnet; reflexivity).
      rewrite Hnet', Hok. unfold_validated_token_in Hdata.
      destruct (JSON_parse (text answer)) as [json|]; [|discriminate Hdata].
      rewrite Hdata. reflexivity.
    - unfold cleared, m2. simpl. rewrite Hnet. reflexivity.
    - unfold cleared, m2. simpl.
      replace (clock m + Z.max 0 l1 + Z.max 0 l2) with (clock m + l1 + l2) by lia.
      reflexivity.
    - unfold cleared, m2. simpl. rewrite <- app_assoc. reflexivity. }
  destruct Hauth as (m3 & Hauth & Hnet3 & Hthis3 & Htrace3).
  assert (Hl3' : l3 < requestTimeoutMs (this m3)) by (rewrite Hthis3; exact Hl3).
  pose proof (@resource_call_in_time endpoint options (token_in data) m3
                l3 r3 rest Hnet3 Hl3') as Hcall.
  rewrite (@request_success JSON_parse URLSearchParams_toString jwt_sign
             endpoint options (retries - 1) cleared m3 _ (token_in data) r3
             Hauth Hcall Hok3 H204).
  unfold response_json. rewrite Hjson.
  eexists. split; [reflexivity|]. split; [|split].
  - unfold after_call. simpl. rewrite Htrace3, <- app_assoc.
    unfold resource_event. rewrite Hthis3. reflexivity.
  - unfold after_call. simpl. rewrite Hthis3. reflexivity.
  - unfold after_call. simpl. rewrite Hnet3. reflexivity.
Qed.

(** *** SOQL query *)

Lemma replace_unfold (pattern replacement s : string) :
  replace pattern replacement s =
  if String.prefix pattern s
  then replacement ++ String.substring (String.length pattern)
                        (String.length s - String.length pattern) s
  else match s with
       | EmptyString => EmptyString
       | String c rest => String c (replace pattern replacement rest)
       end.
Proof. destruct s; reflexivity. Qed.

Lemma prefix_append (p t : string) : String.prefix p (p ++ t) = true.
Proof.
  induction p as [|c p IH]; simpl; [destruct t; reflexivity|].
  destruct (Ascii.ascii_dec c c) as [_|Hne]; [exact IH | congruence].
Qed.

Lemma substring_all (s : string) : String.substring 0 (String.length s) s = s.
Proof.
  induction s as [|c s IH]; simpl; [reflexivity|]. rewrite IH. reflexivity.
Qed.

Lemma substring_after (p t : string) :
  String.substring (String.length p) (String.length (p ++ t) - String.length p) (p ++ t)
  = t.
Proof.
  induction p as [|c p IH]; simpl.
  - rewrite Nat.sub_0_r. apply substring_all.
  - exact IH.
Qed.

(** Stripping a pattern from a string that starts with it leaves what
    follows it. *)
Lemma replace_prefix (p t : string) : replace p "" (p ++ t) = t.
Proof.
  rewrite replace_unfold, prefix_append, substring_after. reflexivity.
Qed.

(** A page fetched with the cached token, with the machine it leaves. *)
Lemma request_default_page_at (endpoint : string) (options : RequestInit)
    (m : Machine) (cached : TokenCache) (p : Page) (rest : list Reply)
    (more : bool) :
  tokenCache (this m) = Some cached ->
  clock m < expiresAt cached ->
  network m = reply_of p :: rest ->
  page_served (requestTimeoutMs (this m)) more p ->
  exists j result,
    JSON_parse (text (snd p)) = Some j /\
    parse SalesforceQueryResponseSchema j = Some result /\
    has_more result = more /\
    as_array (get "records" result) = served_records p /\
    request_default endpoint options m =
      (Return j, after_call endpoint options (token_of cached) (fst p) m).
Proof.
  intros Hcache Hfresh Hnet (Hlat & Hok & H204 & result & Hval & Hmore).
  unfold_validated_in Hval.
  destruct (JSON_parse (text (snd p))) as [j|] eqn:Hjson; [|discriminate Hval].
  exists j, result. repeat split; try assumption.
  - unfold_served_records. rewrite Hjson.
    apply (query_response_validated j Hval).
  - unfold_request_default; unfold bind, read_this.
    pose proof (@authenticate_hit JSON_parse URLSearchParams_toString jwt_sign
                  m cached Hcache Hfresh) as Hauth.
    pose proof (@resource_call_in_time endpoint options (token_of cached) m
                  (fst p) (snd p) rest Hnet (proj2 Hlat)) as Hcall.
    rewrite (@request_success JSON_parse URLSearchParams_toString jwt_sign
               endpoint options (maxRetries (this m)) m m _ (token_of cached) (snd p)
               Hauth Hcall Hok H204).
    unfold response_json. rewrite Hjson. reflexivity.
Qed.

(** X14.  With [fetchAll = false] a query returns the records of the
    first page only and makes a single call, also when that page
    announces further pages; nothing tells the caller that more
    exist. *)
Theorem query_first_page_only (turns : nat) (soql : string) (m : Machine)
    (cached : TokenCache) (p : Page) (rest : list Reply) (more : bool) :
  tokenCache (this m) = Some cached ->
  clock m < expiresAt cached ->
  network m = reply_of p :: rest ->
  page_served (requestTimeoutMs (this m)) more p ->
  exists m',
    query turns soql false m = Some (Return (served_records p), m') /\
    resource_calls m' = S (resource_calls m) /\
    network m' = rest.
Proof.
  intros Hcache Hfresh Hnet Hserved.
  destruct (@request_default_page_at ("/query/?q=" ++ encodeURIComponent soql)
              no_options m cached p rest more Hcache Hfresh Hnet Hserved)
    as (j & result & Hjson & Hparse & _ & Hrecords & Hreq).
  unfold_query. cbv zeta. rewrite Hreq, Hparse, Hrecords.
  eexists. split; [reflexivity|]. split.
  - unfold resource_calls, after_call. simpl.
    rewrite filter_snoc, length_app. simpl. lia.
  - unfold after_call. simpl. rewrite Hnet. reflexivity.
Qed.

(** The loop of [query] on a machine with a cached token whose next reply
    is in time, for one turn. *)
Lemma query_loop_turn (turns : nat) (records : list Json) (nextUrl : string)
    (m : Machine) :
  nextUrl <> "" ->
  query_loop (S turns) records nextUrl m =
  match request_default
          (replace ("/services/data/" ++ template (apiVersion (config (this m))))
             "" nextUrl) no_options m with
  | (Throw e, m1) => Some (Throw e, m1)
  | (Return nextResponse, m1) =>
      match parse SalesforceQueryResponseSchema nextResponse with
      | None => Some (Throw ZodError, m1)
      | Some nextResult =>
          query_loop turns (records ++ as_array (get "records" nextResult))
            (if truthy (get "done" nextResult) then ""
             else if truthy (get "nextRecordsUrl" nextResult)
                  then as_string (get "nextRecordsUrl" nextResult)
                  else "") m1
      end
  end.
Proof.
  intros Hne. unfold_query_loop_step.
  apply String.eqb_neq in Hne. rewrite Hne. reflexivity.
Qed.

(** X15.  The second page of a result is fetched from the instance URL
    followed by the [nextRecordsUrl] of the first page as the server gave
    it: the API prefix that [query] strips from it is the one [request]
    puts back.  The records of the two pages come back in order. *)
Theorem query_follows_next_url (turns : nat) (soql : string) (m : Machine)
    (cached : TokenCache) (p1 p2 : Page) (rest : list Reply)
    (result1 : Json) (tail : string) :
  tokenCache (this m) = Some cached ->
  network m = reply_of p1 :: reply_of p2 :: rest ->
  page_served (requestTimeoutMs (this m)) true p1 ->
  page_served (requestTimeoutMs (this m)) false p2 ->
  clock m + fst p1 + fst p2 < expiresAt cached ->
  validated (snd p1) = Some result1 ->
  as_string (get "nextRecordsUrl" result1) =
    "/services/data/" ++ template (apiVersion (config (this m))) ++ tail ->
  exists m' init,
    query (S turns) soql true m =
      Some (Return (served_records p1 ++ served_records p2)%list, m') /\
    trace m' =
      (trace m ++
       [ resource_event m ("/query/?q=" ++ encodeURIComponent soql) no_options
           (token_of cached);
         Fetch ResourceEndpoint
           (instanceUrl cached ++ as_string (get "nextRecordsUrl" result1)) init ])%list.
Proof.
  intros Hcache Hnet Hp1 Hp2 Hfresh Hval1 Hnext.
  assert (Hl1 : 0 <= fst p1) by (destruct Hp1 as [[? _] _]; assumption).
  assert (Hl2 : 0 <= fst p2) by (destruct Hp2 as [[? _] _]; assumption).
  destruct (@request_default_page_at ("/query/?q=" ++ encodeURIComponent soql)
              no_options m cached p1 _ true Hcache ltac:(lia) Hnet Hp1)
    as (j1 & r1 & Hjson1 & Hparse1 & Hmore1 & Hrecords1 & Hreq1).
  assert (r1 = result1) as ->.
  { unfold_validated_in Hval1. rewrite Hjson1, Hparse1 in Hval1. congruence. }
  set (m1 := after_call ("/query/?q=" ++ encodeURIComponent soql) no_options
               (token_of cached) (fst p1) m) in *.
  destruct (@request_default_page_at tail no_options m1 cached p2 rest false)
    as (j2 & r2 & Hjson2 & Hparse2 & Hmore2 & Hrecords2 & Hreq2).
  { exact Hcache. }
  { unfold m1. simpl. lia. }
  { unfold m1. simpl. rewrite Hnet. reflexivity. }
  { exact Hp2. }
  unfold_query. cbv zeta. rewrite Hreq1, Hparse1.
  change (true && negb (truthy (get "done" result1))
          && truthy (get "nextRecordsUrl" result1)) with (has_more result1).
  rewrite Hmore1.
  destruct (next_url_of_more j1 Hparse1 Hmore1) as [_ Hne].
  rewrite (@query_loop_turn turns _ _ m1 Hne).
  change (config (this m1)) with (config (this m)).
  rewrite Hnext.
  change ("/services/data/" ++ template (apiVersion (config (this m))) ++ tail)
    with (("/services/data/" ++ template (apiVersion (config (this m)))) ++ tail).
  rewrite replace_prefix, Hreq2, Hparse2, (next_url_of_last _ Hmore2), query_loop_done.
  rewrite Hrecords1, Hrecords2.
  do 2 eexists. split; [reflexivity|].
  unfold after_call, m1, after_call. simpl. rewrite <- app_assoc. reflexivity.
Qed.

(** X16.  When a later page cannot be fetched the whole query fails: if
    the second page is answered with a status that is not a success and
    is not retried, [query] throws the API error of that answer and the
    records of the first page are not returned. *)
Theorem query_fails_with_page (turns : nat) (soql : string) (m : Machine)
    (cached : TokenCache) (p1 : Page) (latency : Z) (response : Response)
    (rest : list Reply) :
  tokenCache (this m) = Some cached ->
  network m = reply_of p1 :: Responds latency response :: rest ->
  page_served (requestTimeoutMs (this m)) true p1 ->
  latency < requestTimeoutMs (this m) ->
  clock m + fst p1 < expiresAt cached ->
  ok response = false ->
  status response <> 401 ->
  status response <> 429 ->
  status response < 500 ->
  exists m',
    query (S turns) soql true m =
      Some (Throw (Error (api_error_message JSON_parse response)), m') /\
    resource_calls m' = S (S (resource_calls m)).
Proof.
  intros Hcache Hnet Hp1 Hlat Hfresh Hok H401 H429 H500.
  assert (Hl1 : 0 <= fst p1) by (destruct Hp1 as [[? _] _]; assumption).
  destruct (@request_default_page_at ("/query/?q=" ++ encodeURIComponent soql)
              no_options m cached p1 _ true Hcache ltac:(lia) Hnet Hp1)
    as (j1 & r1 & Hjson1 & Hparse1 & Hmore1 & Hrecords1 & Hreq1).
  set (m1 := after_call ("/query/?q=" ++ encodeURIComponent soql) no_options
               (token_of cached) (fst p1) m) in *.
  unfold_query. cbv zeta. rewrite Hreq1, Hparse1.
  change (true && negb (truthy (get "done" r1))
          && truthy (get "nextRecordsUrl" r1)) with (has_more r1).
  rewrite Hmore1.
  destruct (next_url_of_more j1 Hparse1 Hmore1) as [_ Hne].
  rewrite (@query_loop_turn turns _ _ m1 Hne).
  unfold_request_default; unfold bind, read_this.
  assert (Hnet1 : network m1 = Responds latency response :: rest)
    by (unfold m1; simpl; rewrite Hnet; reflexivity).
  rewrite (@request_cached_attempt JSON_parse URLSearchParams_toString jwt_sign
             _ no_options (maxRetries (this m1)) m1 cached latency response rest
             Hcache ltac:(unfold m1; simpl; lia) Hnet1 Hlat).
  cbv zeta. apply Z.eqb_neq in H401, H429. rewrite H401, H429, Hok.
  replace (status response >=? 500) with false
    by (symmetry; rewrite Z.geb_leb; apply Z.leb_gt; exact H500).
  cbn [andb negb]. eexists. split; [reflexivity|].
  unfold resource_calls, after_call, m1, after_call. simpl.
  rewrite !filter_snoc, !length_app. simpl. lia.
Qed.

(** *** CRUD operations *)

(** A call of a public operation that is answered with a success. *)
Lemma request_default_success (endpoint : string) (options : RequestInit)
    (m m1 m2 : Machine) (token : string * string) (response : Response) :
  authenticate m = (Return token, m1) ->
  resource_call endpoint options token m1 = (Return response, m2) ->
  ok response = true ->
  request_default endpoint options m =
  if status response =? 204 then (Return (JObj []), m2)
  else match JSON_parse (text response) with
       | Some j => (Return j, m2)
       | None => (Throw SyntaxError, m2)
       end.
Proof.
  intros Hauth Hcall Hok.
  unfold_request_default; unfold bind, read_this.
  rewrite (@request_attempt JSON_parse URLSearchParams_toString jwt_sign
             endpoint options (maxRetries (this m)) m m1 m2 token (Return response)
             Hauth Hcall).
  cbv zeta. rewrite Hok.
  unfold ok in Hok. apply Bool.andb_true_iff in Hok. destruct Hok as [Hlo Hhi].
  apply Z.leb_le in Hlo, Hhi.
  replace (status response =? 401) with false by (symmetry; apply Z.eqb_neq; lia).
  replace (status response =? 429) with false by (symmetry; apply Z.eqb_neq; lia).
  replace (status response >=? 500) with false
    by (symmetry; rewrite Z.geb_leb; apply Z.leb_gt; lia).
  cbn [andb negb]. destruct (status response =? 204); [reflexivity|].
  unfold response_json. destruct (JSON_parse (text response)); reflexivity.
Qed.

(** A value without an [errors] key is no create response. *)
Lemma create_response_needs_errors (j : Json) :
  get "errors" j = None -> parse SalesforceCreateResponseSchema j = None.
Proof.
  destruct j as [ | | | | |props]; try reflexivity.
  unfold SalesforceCreateResponseSchema. cbn [get]. intros Herrors.
  rewrite !parse_object_cons, Herrors. cbn [accepts_undefined].
  destruct (assoc_get "id" props) as [v|]; [|reflexivity].
  destruct (parse z_string v); [|reflexivity].
  destruct (assoc_get "success" props) as [w|]; [|reflexivity].
  destruct (parse z_boolean w); reflexivity.
Qed.

(** X17.  [getRecord] returns the body of a successful answer as the
    server sent it, without validation.  The list of fields, when it is
    not empty, goes into the path joined by commas after [?fields=]; an
    empty list is the same as no list. *)
Theorem getRecord_returns_body (sobject recordId : string)
    (fields : option (list string)) (m : Machine) (cached : TokenCache)
    (latency : Z) (response : Response) (rest : list Reply) (j : Json) :
  tokenCache (this m) = Some cached ->
  clock m < expiresAt cached ->
  network m = Responds latency response :: rest ->
  latency < requestTimeoutMs (this m) ->
  ok response = true ->
  status response <> 204 ->
  JSON_parse (text response) = Some j ->
  (fields = None \/ fields = Some [] ->
   getRecord sobject recordId fields m =
     (Return j,
      after_call ("/sobjects/" ++ sobject ++ "/" ++ recordId)
        no_options (token_of cached) latency m)) /\
  (forall field others,
      fields = Some (field :: others) ->
      getRecord sobject recordId fields m =
        (Return j,
         after_call (("/sobjects/" ++ sobject ++ "/" ++ recordId)
                     ++ "?fields=" ++ String.concat "," (field :: others))
           no_options (token_of cached) latency m)).
Proof.
  intros Hcache Hfresh Hnet Hlat Hok H204 Hjson.
  pose proof (@authenticate_hit JSON_parse URLSearchParams_toString jwt_sign
                m cached Hcache Hfresh) as Hauth.
  assert (Hrun : forall endpoint,
             request_default endpoint no_options m =
             (Return j, after_call endpoint no_options (token_of cached) latency m)).
  { intros endpoint.
    rewrite (@request_default_success endpoint no_options m m _ (token_of cached)
               response Hauth
               (@resource_call_in_time endpoint no_options (token_of cached) m
                  latency response rest Hnet Hlat) Hok).
    apply Z.eqb_neq in H204. rewrite H204, Hjson. reflexivity. }
  split.
  - intros [-> | ->]; unfold_getRecord; cbv zeta; apply Hrun.
  - intros field others ->. unfold_getRecord. cbv zeta. apply Hrun.
Qed.

(** X18.  [createRecord] throws a [ZodError] although the server
    answered the creation with a success when the answer is a 204 without
    content, or when its body has no [errors] list: the validated shape
    needs the [id], the [success] flag and the [errors] list. *)
Theorem createRecord_rejects_short_answer (sobject : string) (data : Json)
    (m m1 m2 : Machine) (token : string * string) (response : Response) :
  authenticate m = (Return token, m1) ->
  resource_call ("/sobjects/" ++ sobject ++ "/")
    {| method := Some "POST"; headers := []; body := Some (JSON_stringify data) |}
    token m1 = (Return response, m2) ->
  ok response = true ->
  status response = 204 \/
  (exists j, JSON_parse (text response) = Some j /\ get "errors" j = None) ->
  createRecord sobject data m = (Throw ZodError, m2).
Proof.
  intros Hauth Hcall Hok Hshort.
  unfold_createRecord. unfold bind at 1.
  rewrite (@request_default_success _ _ m m1 m2 token response Hauth Hcall Hok).
  destruct (status response =? 204) eqn:E204; [reflexivity|].
  destruct Hshort as [H204 | (j & Hjson & Herrors)].
  - apply Z.eqb_neq in E204. contradiction.
  - rewrite Hjson. unfold zod_parse.
    rewrite (create_response_needs_errors j Herrors). reflexivity.
Qed.

(** An operation that awaits a request and drops its result. *)
Lemma discarded_outcomes (endpoint : string) (options : RequestInit)
    (m m1 m2 : Machine) (token : string * string) (response : Response) :
  authenticate m = (Return token, m1) ->
  resource_call endpoint options token m1 = (Return response, m2) ->
  ok response = true ->
  let run := (request_default endpoint options ;;; ret tt) m in
  (status response = 204 -> run = (Return tt, m2)) /\
  (forall j, JSON_parse (text response) = Some j -> run = (Return tt, m2)) /\
  (status response <> 204 -> JSON_parse (text response) = None ->
   run = (Throw SyntaxError, m2)).
Proof.
  intros Hauth Hcall Hok run. unfold run, bind.
  rewrite (@request_default_success _ _ m m1 m2 token response Hauth Hcall Hok).
  repeat split.
  - intros ->. reflexivity.
  - intros j ->. destruct (status response =? 204); reflexivity.
  - intros H204 ->. apply Z.eqb_neq in H204. rewrite H204. reflexivity.
Qed.

(** X19.  [updateRecord] and [deleteRecord] succeed on a 204 and on any
    other success whose body is JSON, which they discard; on a success
    other than 204 whose body is not JSON they throw a [SyntaxError]
    although the server carried out the operation. *)
Theorem update_and_delete_outcomes (sobject recordId : string) (data : Json)
    (m m1 m2 : Machine) (token : string * string) (response : Response) :
  authenticate m = (Return token, m1) ->
  ok response = true ->
  (resource_call ("/sobjects/" ++ sobject ++ "/" ++ recordId)
     {| method := Some "PATCH"; headers := []; body := Some (JSON_stringify data) |}
     token m1 = (Return response, m2) ->
   (status response = 204 ->
    updateRecord sobject recordId data m = (Return tt, m2)) /\
   (forall j, JSON_parse (text response) = Some j ->
    updateRecord sobject recordId data m = (Return tt, m2)) /\
   (status response <> 204 -> JSON_parse (text response) = None ->
    updateRecord sobject recordId data m = (Throw SyntaxError, m2))) /\
  (resource_call ("/sobjects/" ++ sobject ++ "/" ++ recordId)
     {| method := Some "DELETE"; headers := []; body := None |}
     token m1 = (Return response, m2) ->
   (status response = 204 ->
    deleteRecord sobject recordId m = (Return tt, m2)) /\
   (forall j, JSON_parse (text response) = Some j ->
    deleteRecord sobject recordId m = (Return tt, m2)) /\
   (status response <> 204 -> JSON_parse (text response) = None ->
    deleteRecord sobject recordId m = (Throw SyntaxError, m2))).
Proof.
  intros Hauth Hok. split; intros Hcall.
  - exact (@discarded_outcomes _ _ m m1 m2 token response Hauth Hcall Hok).
  - exact (@discarded_outcomes _ _ m m1 m2 token response Hauth Hcall Hok).
Qed.

(** X20.  [upsertRecord] returns the answer as it is, without the
    validation [createRecord] applies: on a 204 the object it returns is
    empty, so it has no [id], no [success] and no [created], and on
    another success it is the body whatever its shape. *)
Theorem upsertRecord_returns_unvalidated
    (sobject externalIdField externalIdValue : string) (data : Json)
    (m m1 m2 : Machine) (token : string * string) (response : Response) :
  authenticate m = (Return token, m1) ->
  resource_call
    ("/sobjects/" ++ sobject ++ "/" ++ externalIdField ++ "/" ++ externalIdValue)
    {| method := Some "PATCH"; headers := []; body := Some (JSON_stringify data) |}
    token m1 = (Return response, m2) ->
  ok response = true ->
  (status response = 204 ->
   upsertRecord sobject externalIdField externalIdValue data m = (Return (JObj []), m2) /\
   forall k, get k (JObj []) = None) /\
  (forall j,
      status response <> 204 ->
      JSON_parse (text response) = Some j ->
      upsertRecord sobject externalIdField externalIdValue data m = (Return j, m2)).
Proof.
  intros Hauth Hcall Hok.
  unfold_upsertRecord.
  rewrite (@request_default_success _ _ m m1 m2 token response Hauth Hcall Hok).
  split.
  - intros ->. split; reflexivity.
  - intros j H204 Hjson. apply Z.eqb_neq in H204. rewrite H204, Hjson. reflexivity.
Qed.

(** *** HTI-specific methods *)

(** X21.  Every record that [getAccounts], [getContacts],
    [getOpportunities], [getTasks] or [searchAccounts] returns has an [Id]
    that is a string, and these methods return as many records as their
    query did: validation drops no record, it passes all or throws. *)
Theorem hti_records_have_Id (turns : nat) (searchTerm : string)
    (m m' : Machine) (records : list Json) :
  getAccounts turns m = Some (Return records, m') \/
  getContacts turns m = Some (Return records, m') \/
  getOpportunities turns m = Some (Return records, m') \/
  getTasks turns m = Some (Return records, m') \/
  searchAccounts turns searchTerm m = Some (Return records, m') ->
  Forall has_Id records /\
  exists soql queried,
    query turns soql true m = Some (Return queried, m') /\
    List.length records = List.length queried.
Proof.
  assert (Hany : forall shape soql,
             In shape sobject_schemas ->
             validate_records shape (query turns soql true m)
               = Some (Return records, m') ->
             Forall has_Id records /\
             exists soql queried,
               query turns soql true m = Some (Return queried, m') /\
               List.length records = List.length queried).
  { intros shape soql Hshape Hrun.
    destruct (@validate_records_Id shape _ records m' Hshape Hrun)
      as (Hall & queried & Hquery & Hlen).
    split; [exact Hall|]. exists soql, queried. split; assumption. }
  unfold sobject_schemas in Hany.
  intros [H | [H | [H | [H | H]]]]; eapply Hany; try exact H; simpl; auto.
Qed.

(** X22.  The first request of a client whose cache is empty obtains a
    token with one call to the token endpoint and then makes its call to
    the resource endpoint with that token, on the instance URL the token
    came with.  The token stays in the cache, and as long as the token
    TTL has not elapsed the next authentication answers from the cache
    without any call. *)
Theorem request_cold_start (endpoint : string) (options : RequestInit)
    (retries : Z) (m : Machine) (assertion : string)
    (l1 l2 : Z) (answer response : Response) (rest : list Reply) (data j : Json) :
  tokenCache (this m) = None ->
  jwt_sign (assertion_payload m) (privateKey (config (this m))) = inr assertion ->
  network m = Responds l1 answer :: Responds l2 response :: rest ->
  0 <= l1 ->
  0 <= l2 < requestTimeoutMs (this m) ->
  ok answer = true ->
  validated_token answer = Some data ->
  ok response = true ->
  status response <> 204 ->
  JSON_parse (text response) = Some j ->
  exists m',
    request endpoint options retries m = (Return j, m') /\
    trace m' =
      (trace m ++
       [ token_call m (URLSearchParams_toString (grant_params assertion));
         resource_event m endpoint options (token_in data) ])%list /\
    tokenCache (this m') =
      Some {| accessToken := fst (token_in data);
              instanceUrl := snd (token_in data);
              expiresAt := clock m + l1 + tokenCacheTtlMs (this m) |} /\
    (l2 < tokenCacheTtlMs (this m) ->
     authenticate m' = (Return (token_in data), m')).
Proof.
  intros Hcache Hsign Hnet Hl1 Hl2 Hok Hdata Hok' H204 Hjson.
  assert (Hmiss : fresh_token (tokenCache (this m)) (clock m) = None)
    by (rewrite Hcache; reflexivity).
  pose proof (@authenticate_miss m Hmiss) as Hauth.
  rewrite Hsign in Hauth. cbv zeta in Hauth. rewrite Hnet, Hok in Hauth.
  unfold_validated_token_in Hdata.
  destruct (JSON_parse (text answer)) as [json|]; [|discriminate Hdata].
  rewrite Hdata in Hauth. cbn [negb] in Hauth.
  match type of Hauth with _ = (_, ?state) => set (m1 := state) in * end.
  assert (Hnet1 : network m1 = Responds l2 response :: rest)
    by (unfold m1; simpl; rewrite Hnet; reflexivity).
  pose proof (@resource_call_in_time endpoint options (token_in data) m1
                l2 response rest Hnet1 (proj2 Hl2)) as Hcall.
  rewrite (@request_success JSON_parse URLSearchParams_toString jwt_sign
             endpoint options retries m m1 _ (token_in data) response
             Hauth Hcall Hok' H204).
  unfold response_json. rewrite Hjson.
  eexists. split; [reflexivity|]. split; [|split].
  - unfold after_call, m1. simpl. rewrite <- app_assoc. reflexivity.
  - unfold after_call, m1. simpl.
    replace (clock m + Z.max 0 l1) with (clock m + l1) by lia. reflexivity.
  - intros Httl.
    apply (@authenticate_hit JSON_parse URLSearchParams_toString jwt_sign _
             {| accessToken := fst (token_in data);
                instanceUrl := snd (token_in data);
                expiresAt := clock m + Z.max 0 l1 + tokenCacheTtlMs (this m) |}).
    + reflexivity.
    + unfold after_call, m1. simpl. lia.
Qed.

End Coverage.

(** ** Worked runs *)

(** *** Runs that exercise the theorems *)

Lemma authenticate_cache_hit_witness :
  demo_authenticate (warm_machine []) = (Return T1, warm_machine []) /\
  token_calls (snd (demo_authenticate (warm_machine []))) = 0%nat.
Proof.
  exact (authenticate_cache_hit demo_JSON_parse demo_URLSearchParams_toString
           demo_jwt_sign (warm_machine [])
           (cached := mkTokenCache "T1" "https://x" 3300000)
           eq_refl ltac:(simpl; lia)).
Defined.

Lemma authenticate_failure_atomic_witness :
  tokenCache (this (snd (demo_authenticate
                           (expired_machine [Responds 50 (mkResponse 400 "invalid_grant")]))))
  = Some (mkTokenCache "T1" "https://x" 3300000).
Proof.
  exact (authenticate_failure_atomic demo_JSON_parse demo_URLSearchParams_toString
           demo_jwt_sign
           (expired_machine [Responds 50 (mkResponse 400 "invalid_grant")])
           (e := Error "Salesforce authentication failed: invalid_grant")
           eq_refl).
Defined.

Lemma authenticate_stores_exchanged_token_witness :
  tokenCache (this (snd (demo_authenticate
                           (fresh_machine [Responds 120 (mkResponse 200 token_body)]))))
  = Some (mkTokenCache "T1" "https://x" 3300120).
Proof.
  exact (proj1 (authenticate_stores_exchanged_token demo_JSON_parse
                  demo_URLSearchParams_toString demo_jwt_sign
                  (fresh_machine [Responds 120 (mkResponse 200 token_body)])
                  (token := T1) eq_refl eq_refl)).
Defined.

Lemma request_unauthorized_witness :
  demo_request "/limits/" no_options 0 (warm_machine [Responds 120 r401]) =
    (Throw (Error "Salesforce authentication failed after retries"),
     with_tokenCache None
       (after_call "/limits/" no_options T1 120 (warm_machine [Responds 120 r401]))) /\
  demo_request "/limits/" no_options 1 (warm_machine [Responds 120 r401]) =
    demo_request "/limits/" no_options 0
      (with_tokenCache None
         (after_call "/limits/" no_options T1 120 (warm_machine [Responds 120 r401]))).
Proof.
  pose (H := fun retries =>
          @request_unauthorized demo_JSON_parse demo_URLSearchParams_toString
            demo_jwt_sign "/limits/" no_options retries
            (warm_machine [Responds 120 r401]) (warm_machine [Responds 120 r401])
            (after_call "/limits/" no_options T1 120 (warm_machine [Responds 120 r401]))
            T1 r401 eq_refl eq_refl eq_refl).
  split.
  - apply (proj1 (proj2 (proj2 (H 0)))). clear H. lia.
  - apply (proj1 (proj2 (H 1))). clear H. lia.
Defined.

Lemma request_backoff_delay_witness :
  demo_request "/limits/" no_options 3 (warm_machine [Responds 120 r429]) =
    demo_request "/limits/" no_options 2
      (after_wait 1000
         (after_call "/limits/" no_options T1 120 (warm_machine [Responds 120 r429]))) /\
  exists s',
    request_default demo_JSON_parse demo_URLSearchParams_toString demo_jwt_sign
      "/limits/" no_options
      (warm_machine [Responds 120 r429; Responds 90 r429; Responds 70 r429;
                     Responds 60 r429]) =
      (Throw (Error "Salesforce API Error: Request limit exceeded"), s') /\
    waits s' = [1000; 2000; 4000] /\
    resource_calls s' = 4%nat.
Proof.
  assert (Htransient : transient (Return r429)).
  { simpl. split; [lia | left; reflexivity]. }
  pose (H := @request_backoff_delay demo_JSON_parse demo_URLSearchParams_toString
               demo_jwt_sign "/limits/" no_options 3
               (warm_machine [Responds 120 r429]) (warm_machine [Responds 120 r429])
               (after_call "/limits/" no_options T1 120 (warm_machine [Responds 120 r429]))
               T1 (Return r429)
               eq_refl eq_refl Htransient (conj eq_refl (Z.le_refl 3))).
  split.
  - exact (proj1 H).
  - apply (proj2 (proj2 H)
             (warm_machine [Responds 120 r429; Responds 90 r429; Responds 70 r429;
                            Responds 60 r429])
             (mkTokenCache "T1" "https://x" 3300000)
             120 90 70 60 r429 r429 r429 r429 []);
      clear H Htransient; try reflexivity; simpl; repeat split; lia.
Defined.

Lemma request_exhausted_budget_witness :
  demo_request "/limits/" no_options 0 (warm_machine [Responds 120 r429]) =
    (Throw (Error "Salesforce API Error: Request limit exceeded"),
     after_call "/limits/" no_options T1 120 (warm_machine [Responds 120 r429])) /\
  demo_request "/limits/" no_options 0 (warm_machine [Responds 120 r503]) =
    (Throw (Error "Salesforce API Error (503): Service Unavailable"),
     after_call "/limits/" no_options T1 120 (warm_machine [Responds 120 r503])).
Proof.
  pose (H := fun response =>
          @request_exhausted_budget demo_JSON_parse demo_URLSearchParams_toString
            demo_jwt_sign "/limits/" no_options 0
            (warm_machine [Responds 120 response]) (warm_machine [Responds 120 response])
            (after_call "/limits/" no_options T1 120 (warm_machine [Responds 120 response]))
            T1 response eq_refl eq_refl).
  split.
  - apply (H r429); clear H; [left; reflexivity | lia].
  - apply (H r503); clear H; [right; simpl; lia | lia].
Defined.

Lemma request_api_error_witness :
  demo_request "/sobjects/Account/001" no_options 3 (warm_machine [Responds 120 r404]) =
    (Throw (Error "Salesforce API Error (404): Not Found"),
     after_call "/sobjects/Account/001" no_options T1 120
       (warm_machine [Responds 120 r404])).
Proof.
  exact (proj1 (@request_api_error demo_JSON_parse demo_URLSearchParams_toString
                  demo_jwt_sign "/sobjects/Account/001" no_options 3
                  (warm_machine [Responds 120 r404]) (warm_machine [Responds 120 r404])
                  (after_call "/sobjects/Account/001" no_options T1 120
                     (warm_machine [Responds 120 r404]))
                  T1 r404
                  eq_refl eq_refl eq_refl
                  ltac:(simpl; lia) ltac:(simpl; lia) ltac:(simpl; lia))).
Defined.

Lemma request_attempts_bounded_witness :
  Z.of_nat (resource_calls
              (snd (demo_request "/limits/" no_options 3
                      (warm_machine [Responds 120 r429; Responds 90 r429;
                                     Responds 70 r429; Responds 60 r429]))))
  <= 0 + 3 + 1.
Proof.
  exact (@request_attempts_bounded demo_JSON_parse demo_URLSearchParams_toString
           demo_jwt_sign "/limits/" no_options 3
           (warm_machine [Responds 120 r429; Responds 90 r429;
                          Responds 70 r429; Responds 60 r429])
           ltac:(lia)).
Defined.

Lemma createRecord_returns_validated_response_witness :
  demo_createRecord "Account" (JObj [("Name", JStr "New Account")])
    (warm_machine [Responds 120 (mkResponse 201 create_body)]) =
  (Return (JObj [("id", JStr "001x"); ("success", JBool true); ("errors", JArr [])]),
   after_call "/sobjects/Account/" create_options T1 120
     (warm_machine [Responds 120 (mkResponse 201 create_body)])).
Proof.
  apply (@createRecord_returns_validated_response demo_JSON_parse demo_JSON_stringify
           demo_URLSearchParams_toString demo_jwt_sign
           "Account" (JObj [("Name", JStr "New Account")])
           (warm_machine [Responds 120 (mkResponse 201 create_body)])
           (warm_machine [Responds 120 (mkResponse 201 create_body)])
           (after_call "/sobjects/Account/" create_options T1 120
              (warm_machine [Responds 120 (mkResponse 201 create_body)]))
           T1 (mkResponse 201 create_body) "001x" true []);
    try reflexivity.
  simpl. lia.
Defined.

Lemma query_concatenates_pages_witness :
  exists m',
    demo_query 1 "SELECT Id FROM Account" true
      (warm_machine (map reply_of two_pages)) =
      Some (Return [ JObj [("Id", JStr "1")]; JObj [("Id", JStr "2")];
                     JObj [("Id", JStr "3")] ], m') /\
    resource_calls m' = 2%nat.
Proof.
  destruct (@query_concatenates_pages demo_JSON_parse demo_encodeURIComponent
              demo_URLSearchParams_toString demo_jwt_sign
              1%nat "SELECT Id FROM Account"
              (warm_machine (map reply_of two_pages))
              (mkTokenCache "T1" "https://x" 3300000) two_pages [])
    as (m' & Hrun & _ & Hcalls & _).
  - reflexivity.
  - reflexivity.
  - simpl. repeat split; try lia; try reflexivity; try discriminate;
      eexists; split; reflexivity.
  - simpl. lia.
  - simpl. lia.
  - exists m'. split; [exact Hrun | exact Hcalls].
Defined.

(** *** Runs that contradict the specification *)

(** C4 as stated fails.  A 429 that meets an empty budget raises the very
    error a 400 with the same body raises, an API error and no rate-limit
    error; a 503 that meets an empty budget raises an API error and no
    server error. *)
Lemma request_exhausted_budget_counterexample :
  let limited := Error "Salesforce API Error: Request limit exceeded" in
  let unavailable := Error "Salesforce API Error (503): Service Unavailable" in
  fst (demo_request "/limits/" no_options 0 (warm_machine [Responds 120 r429]))
    = Throw limited /\
  fst (demo_request "/limits/" no_options 0
         (warm_machine [Responds 120 (mkResponse 400 errors_body)]))
    = Throw limited /\
  error_class limited = ApiError /\
  error_class limited <> RateLimitError /\
  fst (demo_request "/limits/" no_options 0 (warm_machine [Responds 120 r503]))
    = Throw unavailable /\
  error_class unavailable = ApiError /\
  error_class unavailable <> ServerError.
Proof.
  cbv zeta.
  split; [vm_compute; reflexivity|].
  split; [vm_compute; reflexivity|].
  split; [reflexivity|].
  split; [vm_compute; discriminate|].
  split; [vm_compute; reflexivity|].
  split; [reflexivity|].
  vm_compute; discriminate.
Qed.

(** C6 as stated fails.  The object [createRecord] returns for the body of
    the scenario has an [errors] field and is not the object of the [id]
    and [success] fields alone. *)
Lemma createRecord_counterexample :
  exists returned m',
    demo_createRecord "Account" (JObj [("Name", JStr "New Account")])
      (warm_machine [Responds 120 (mkResponse 201 create_body)]) =
      (Return returned, m') /\
    get "errors" returned = Some (JArr []) /\
    returned <> JObj [("id", JStr "001x"); ("success", JBool true)].
Proof.
  do 2 eexists.
  split; [vm_compute; reflexivity|].
  split; [reflexivity|].
  discriminate.
Qed.

(** *** Runs that exercise the further properties *)

Lemma sobject_validation_keeps_fields_witness :
  exists validated,
    parse_passthrough AccountSchema account_record = Some validated /\
    get "Employees__c" validated = Some (JNum 7) /\
    get "attributes" validated = Some (JObj [("type", JStr "Account")]).
Proof.
  eexists. split; [reflexivity|]. split.
  - apply (@sobject_validation_keeps_fields AccountSchema account_record _
             "Employees__c"); [simpl; auto | reflexivity].
  - apply (@sobject_validation_keeps_fields AccountSchema account_record _
             "attributes"); [simpl; auto | reflexivity].
Defined.

Lemma sobject_validation_rejects_null_witness :
  parse_array AccountSchema [account_record; null_record] = None /\
  validate_records AccountSchema
    (Some (Return [account_record; null_record], warm_machine [])) =
    Some (Throw ZodError, warm_machine []).
Proof.
  apply (@sobject_validation_rejects_null AccountSchema
           [account_record; null_record] null_record "Industry" (warm_machine []));
    [simpl; auto | simpl; auto | reflexivity | reflexivity].
Defined.

Lemma configFromEnv_required_witness :
  configFromEnv bare_env demo_readFileSync =
    inl (Error "SF_CLIENT_ID environment variable is required").
Proof.
  apply (proj1 (configFromEnv_required bare_env demo_readFileSync)). reflexivity.
Defined.

Lemma configFromEnv_key_precedence_witness :
  configFromEnv demo_env failing_readFileSync = configFromEnv demo_env demo_readFileSync /\
  configFromEnv demo_env failing_readFileSync = inr demo_config.
Proof.
  split.
  - apply (@configFromEnv_key_precedence demo_env failing_readFileSync
             demo_readFileSync "PEM"). reflexivity.
  - reflexivity.
Defined.

Lemma configFromEnv_result_witness :
  config (constructor (mkOptions demo_config None None None)) = demo_config /\
  loginUrl demo_config = Some SALESFORCE_LOGIN_URL.
Proof.
  pose proof (@configFromEnv_result demo_env demo_readFileSync demo_config eq_refl)
    as (_ & _ & _ & _ & _ & Hlogin & _ & Hclient).
  split; [apply Hclient | exact Hlogin].
Defined.

Lemma authenticate_signing_failure_witness :
  demo_authenticate (keyless_machine [Responds 120 token_answer]) =
    (Throw (Error "secretOrPrivateKey must have a value"),
     keyless_machine [Responds 120 token_answer]) /\
  demo_request "/limits/" no_options 3 (keyless_machine [Responds 120 token_answer]) =
    (Throw (Error "secretOrPrivateKey must have a value"),
     keyless_machine [Responds 120 token_answer]).
Proof.
  pose proof (@authenticate_signing_failure demo_JSON_parse
                demo_URLSearchParams_toString demo_jwt_sign
                (keyless_machine [Responds 120 token_answer])
                (Error "secretOrPrivateKey must have a value")
                (or_introl eq_refl) eq_refl) as [Hauth Hrequest].
  split; [exact Hauth | apply Hrequest].
Defined.

Lemma authenticate_rejected_exchange_witness :
  fst (demo_authenticate (fresh_machine [Responds 50 (mkResponse 400 "invalid_grant")]))
    = Throw (Error "Salesforce authentication failed: invalid_grant") /\
  fst (demo_request "/limits/" no_options 3
         (fresh_machine [Responds 50 (mkResponse 400 "invalid_grant")]))
    = Throw (Error "Salesforce authentication failed: invalid_grant").
Proof.
  pose proof (@authenticate_rejected_exchange demo_JSON_parse
                demo_URLSearchParams_toString demo_jwt_sign
                (fresh_machine [Responds 50 (mkResponse 400 "invalid_grant")])
                "assertion" 50 (mkResponse 400 "invalid_grant") []
                (or_introl eq_refl) eq_refl eq_refl eq_refl)
    as (Hauth & _ & _ & _ & Hrequest).
  split.
  - unfold demo_authenticate. rewrite Hauth. reflexivity.
  - unfold demo_request. rewrite (proj1 (Hrequest "/limits/" no_options 3)).
    reflexivity.
Defined.

Lemma authenticate_exchange_call_witness :
  exists assertion,
    trace (snd (demo_authenticate (expired_machine [Responds 120 token_answer]))) =
      [token_call (expired_machine []) (demo_URLSearchParams_toString (grant_params assertion))].
Proof.
  destruct (@authenticate_exchange_call demo_JSON_parse demo_URLSearchParams_toString
              demo_jwt_sign (expired_machine [Responds 120 token_answer])
              (snd (demo_authenticate (expired_machine [Responds 120 token_answer]))) T1)
    as (assertion & latency & response & rest & data & _ & _ & Htrace & _).
  - right. exists (mkTokenCache "T1" "https://x" 3300000).
    split; [reflexivity | simpl; lia].
  - reflexivity.
  - exists assertion. exact Htrace.
Defined.

Lemma request_times_out_witness :
  demo_request "/limits/" no_options 0
    (warm_machine [Responds 30000 (mkResponse 200 create_body)]) =
  (Throw (Error "Salesforce request timeout after retries"),
   after_call "/limits/" no_options T1 30000
     (warm_machine [Responds 30000 (mkResponse 200 create_body)])).
Proof.
  apply (@request_times_out demo_JSON_parse demo_URLSearchParams_toString demo_jwt_sign
           "/limits/" no_options 0
           (warm_machine [Responds 30000 (mkResponse 200 create_body)])
           (warm_machine [Responds 30000 (mkResponse 200 create_body)])
           T1 (Responds 30000 (mkResponse 200 create_body)) []);
    try reflexivity; simpl; lia.
Defined.

Lemma request_network_error_witness :
  demo_request "/limits/" no_options 3
    (warm_machine [Rejects 10 (TypeError "fetch failed")]) =
  (Throw (TypeError "fetch failed"),
   after_call "/limits/" no_options T1 10
     (warm_machine [Rejects 10 (TypeError "fetch failed")])).
Proof.
  apply (@request_network_error demo_JSON_parse demo_URLSearchParams_toString
           demo_jwt_sign "/limits/" no_options 3
           (warm_machine [Rejects 10 (TypeError "fetch failed")])
           (warm_machine [Rejects 10 (TypeError "fetch failed")])
           (after_call "/limits/" no_options T1 10
              (warm_machine [Rejects 10 (TypeError "fetch failed")]))
           T1 (TypeError "fetch failed"));
    try reflexivity. discriminate.
Defined.

Lemma request_bounded_effects_witness :
  Z.of_nat (token_calls
              (snd (demo_request "/limits/" no_options 3
                      (warm_machine [Responds 120 r401; Responds 50 token_answer;
                                     Responds 70 r401]))))
  <= 0 + 3 + 1.
Proof.
  apply (@request_bounded_effects demo_JSON_parse demo_URLSearchParams_toString
           demo_jwt_sign "/limits/" no_options 3
           (warm_machine [Responds 120 r401; Responds 50 token_answer;
                          Responds 70 r401])).
  lia.
Defined.

Lemma request_recovers_from_401_witness :
  exists m',
    demo_request "/sobjects/Account/" create_options 1
      (warm_machine [Responds 120 r401; Responds 50 token_answer;
                     Responds 70 created_answer]) =
      (Return (JObj [("id", JStr "001x"); ("success", JBool true); ("errors", JArr [])]),
       m') /\
    token_calls m' = 1%nat /\ resource_calls m' = 2%nat.
Proof.
  destruct (@request_recovers_from_401 demo_JSON_parse demo_URLSearchParams_toString
              demo_jwt_sign "/sobjects/Account/" create_options 1
              (warm_machine [Responds 120 r401; Responds 50 token_answer;
                             Responds 70 created_answer])
              (mkTokenCache "T1" "https://x" 3300000)
              120 50 70 r401 token_answer created_answer [] "assertion"
              (JObj [ ("access_token", JStr "T1");
                      ("instance_url", JStr "https://x");
                      ("id", JStr "https://login.salesforce.com/id/00D/005");
                      ("token_type", JStr "Bearer");
                      ("issued_at", JStr "1700000000000");
                      ("signature", JStr "c2ln") ])
              (JObj [("id", JStr "001x"); ("success", JBool true); ("errors", JArr [])]))
    as (m' & Hrun & Htrace & _); try reflexivity; try (simpl; lia).
  exists m'. split; [exact Hrun|].
  unfold token_calls, resource_calls. rewrite Htrace. split; reflexivity.
Defined.

Lemma query_first_page_only_witness :
  exists m',
    demo_query 0 "SELECT Id FROM Account" false (warm_machine (map reply_of two_pages)) =
      Some (Return [ JObj [("Id", JStr "1")]; JObj [("Id", JStr "2")] ], m') /\
    resource_calls m' = 1%nat.
Proof.
  destruct (@query_first_page_only demo_JSON_parse demo_encodeURIComponent
              demo_URLSearchParams_toString demo_jwt_sign
              0%nat "SELECT Id FROM Account"
              (warm_machine (map reply_of two_pages))
              (mkTokenCache "T1" "https://x" 3300000)
              (120, mkResponse 200 page1_body)
              [Responds 80 (mkResponse 200 page2_body)] true)
    as (m' & Hrun & Hcalls & _).
  - reflexivity.
  - simpl. lia.
  - reflexivity.
  - simpl. repeat split; try lia; try reflexivity; try discriminate.
    eexists. split; reflexivity.
  - exists m'. split; [exact Hrun | exact Hcalls].
Defined.

Lemma query_follows_next_url_witness :
  exists m' init,
    demo_query 1 "SELECT Id FROM Account" true (warm_machine (map reply_of two_pages)) =
      Some (Return [ JObj [("Id", JStr "1")]; JObj [("Id", JStr "2")];
                     JObj [("Id", JStr "3")] ], m') /\
    nth_error (trace m') 1 =
      Some (Fetch ResourceEndpoint "https://x/services/data/v61.0/query/01g-2000" init).
Proof.
  destruct (@query_follows_next_url demo_JSON_parse demo_encodeURIComponent
              demo_URLSearchParams_toString demo_jwt_sign
              0%nat "SELECT Id FROM Account"
              (warm_machine (map reply_of two_pages))
              (mkTokenCache "T1" "https://x" 3300000)
              (120, mkResponse 200 page1_body) (80, mkResponse 200 page2_body) []
              (JObj [ ("totalSize", JNum 3);
                      ("done", JBool false);
                      ("records",
                       JArr [ JObj [("Id", JStr "1")]; JObj [("Id", JStr "2")] ]);
                      ("nextRecordsUrl", JStr "/services/data/v61.0/query/01g-2000") ])
              "/query/01g-2000")
    as (m' & init & Hrun & Htrace); try reflexivity; try (simpl; lia).
  - simpl. repeat split; try lia; try reflexivity; try discriminate.
    eexists. split; reflexivity.
  - simpl. repeat split; try lia; try reflexivity; try discriminate.
    eexists. split; reflexivity.
  - exists m', init. split; [exact Hrun|]. rewrite Htrace. reflexivity.
Defined.

Lemma query_fails_with_page_witness :
  exists m',
    demo_query 1 "SELECT Id FROM Account" true
      (warm_machine [Responds 120 (mkResponse 200 page1_body); Responds 80 r404]) =
      Some (Throw (Error "Salesforce API Error (404): Not Found"), m').
Proof.
  destruct (@query_fails_with_page demo_JSON_parse demo_encodeURIComponent
              demo_URLSearchParams_toString demo_jwt_sign
              0%nat "SELECT Id FROM Account"
              (warm_machine [Responds 120 (mkResponse 200 page1_body); Responds 80 r404])
              (mkTokenCache "T1" "https://x" 3300000)
              (120, mkResponse 200 page1_body) 80 r404 [])
    as (m' & Hrun & _); try reflexivity; try (simpl; lia).
  - simpl. repeat split; try lia; try reflexivity; try discriminate.
    eexists. split; reflexivity.
  - exists m'. exact Hrun.
Defined.

Lemma getRecord_returns_body_witness :
  getRecord demo_JSON_parse demo_URLSearchParams_toString demo_jwt_sign
    "Account" "001" (Some ["Id"; "Name"])
    (warm_machine [Responds 120 (mkResponse 200 errors_body)]) =
  (Return (JArr [ JObj [ ("message", JStr "Request limit exceeded");
                         ("errorCode", JStr "REQUEST_LIMIT_EXCEEDED") ] ]),
   after_call "/sobjects/Account/001?fields=Id,Name" no_options T1 120
     (warm_machine [Responds 120 (mkResponse 200 errors_body)])).
Proof.
  apply (proj2 (@getRecord_returns_body demo_JSON_parse demo_URLSearchParams_toString
                  demo_jwt_sign "Account" "001" (Some ["Id"; "Name"])
                  (warm_machine [Responds 120 (mkResponse 200 errors_body)])
                  (mkTokenCache "T1" "https://x" 3300000)
                  120 (mkResponse 200 errors_body) []
                  (JArr [ JObj [ ("message", JStr "Request limit exceeded");
                                 ("errorCode", JStr "REQUEST_LIMIT_EXCEEDED") ] ])
                  eq_refl eq_refl eq_refl eq_refl eq_refl
                  ltac:(discriminate) eq_refl)
           "Id" ["Name"] eq_refl).
Defined.

Lemma createRecord_rejects_short_answer_witness :
  demo_createRecord "Account" (JObj [("Name", JStr "New Account")])
    (warm_machine [Responds 120 no_content]) =
  (Throw ZodError,
   after_call "/sobjects/Account/" create_options T1 120
     (warm_machine [Responds 120 no_content])).
Proof.
  apply (@createRecord_rejects_short_answer demo_JSON_parse demo_JSON_stringify
           demo_URLSearchParams_toString demo_jwt_sign
           "Account" (JObj [("Name", JStr "New Account")])
           (warm_machine [Responds 120 no_content])
           (warm_machine [Responds 120 no_content])
           (after_call "/sobjects/Account/" create_options T1 120
              (warm_machine [Responds 120 no_content]))
           T1 no_content);
    try reflexivity.
  left. reflexivity.
Defined.

Lemma update_and_delete_outcomes_witness :
  deleteRecord demo_JSON_parse demo_URLSearchParams_toString demo_jwt_sign
    "Account" "001" (warm_machine [Responds 120 no_content]) =
  (Return tt,
   after_call "/sobjects/Account/001"
     {| method := Some "DELETE"; headers := []; body := None |} T1 120
     (warm_machine [Responds 120 no_content])) /\
  updateRecord demo_JSON_parse demo_JSON_stringify demo_URLSearchParams_toString
    demo_jwt_sign "Account" "001" (JObj [("Name", JStr "Acme")])
    (warm_machine [Responds 120 (mkResponse 200 "")]) =
  (Throw SyntaxError,
   after_call "/sobjects/Account/001" 
     {| method := Some "PATCH"; headers := []; body := Some "{}" |} T1 120
     (warm_machine [Responds 120 (mkResponse 200 "")])).
Proof.
  split.
  - apply (proj1 (proj2 (@update_and_delete_outcomes demo_JSON_parse demo_JSON_stringify
                    demo_URLSearchParams_toString demo_jwt_sign
                    "Account" "001" (JObj [])
                    (warm_machine [Responds 120 no_content])
                    (warm_machine [Responds 120 no_content])
                    (after_call "/sobjects/Account/001"
                       {| method := Some "DELETE"; headers := []; body := None |}
                       T1 120 (warm_machine [Responds 120 no_content]))
                    T1 no_content eq_refl eq_refl)
             eq_refl)).
    reflexivity.
  - apply (proj2 (proj2 (proj1 (@update_and_delete_outcomes demo_JSON_parse demo_JSON_stringify
                    demo_URLSearchParams_toString demo_jwt_sign
                    "Account" "001" (JObj [("Name", JStr "Acme")])
                    (warm_machine [Responds 120 (mkResponse 200 "")])
                    (warm_machine [Responds 120 (mkResponse 200 "")])
                    (after_call "/sobjects/Account/001"
                       {| method := Some "PATCH"; headers := []; body := Some "{}" |}
                       T1 120 (warm_machine [Responds 120 (mkResponse 200 "")]))
                    T1 (mkResponse 200 "") eq_refl eq_refl)
             eq_refl)));
      [discriminate | reflexivity].
Defined.

Lemma upsertRecord_returns_unvalidated_witness :
  upsertRecord demo_JSON_parse demo_JSON_stringify demo_URLSearchParams_toString
    demo_jwt_sign "Account" "External_Id__c" "A-17" (JObj [("Name", JStr "Acme")])
    (warm_machine [Responds 120 no_content]) =
  (Return (JObj []),
   after_call "/sobjects/Account/External_Id__c/A-17"
     {| method := Some "PATCH"; headers := []; body := Some "{}" |} T1 120
     (warm_machine [Responds 120 no_content])).
Proof.
  exact (proj1 (proj1
           (@upsertRecord_returns_unvalidated demo_JSON_parse demo_JSON_stringify
              demo_URLSearchParams_toString demo_jwt_sign
              "Account" "External_Id__c" "A-17" (JObj [("Name", JStr "Acme")])
              (warm_machine [Responds 120 no_content])
              (warm_machine [Responds 120 no_content])
              (after_call "/sobjects/Account/External_Id__c/A-17"
                 {| method := Some "PATCH"; headers := []; body := Some "{}" |} T1 120
                 (warm_machine [Responds 120 no_content]))
              T1 no_content eq_refl eq_refl eq_refl)
           eq_refl)).
Defined.

Lemma hti_records_have_Id_witness :
  exists records m',
    getAccounts demo_JSON_parse demo_encodeURIComponent demo_URLSearchParams_toString
      demo_jwt_sign 1 (warm_machine (map reply_of two_pages)) =
      Some (Return records, m') /\
    List.length records = 3%nat /\
    Forall has_Id records.
Proof.
  do 2 eexists. split; [vm_compute; reflexivity|]. split; [reflexivity|].
  eapply (@hti_records_have_Id demo_JSON_parse demo_encodeURIComponent
            demo_URLSearchParams_toString demo_jwt_sign 1%nat ""
            (warm_machine (map reply_of two_pages))).
  left. vm_compute. reflexivity.
Defined.

Lemma request_cold_start_witness :
  exists m',
    demo_request "/sobjects/Account/" create_options 3
      (fresh_machine [Responds 50 token_answer; Responds 70 created_answer]) =
      (Return (JObj [("id", JStr "001x"); ("success", JBool true); ("errors", JArr [])]),
       m') /\
    token_calls m' = 1%nat /\
    demo_authenticate m' = (Return T1, m').
Proof.
  destruct (@request_cold_start demo_JSON_parse demo_URLSearchParams_toString
              demo_jwt_sign "/sobjects/Account/" create_options 3
              (fresh_machine [Responds 50 token_answer; Responds 70 created_answer])
              "assertion" 50 70 token_answer created_answer []
              (JObj [ ("access_token", JStr "T1");
                      ("instance_url", JStr "https://x");
                      ("id", JStr "https://login.salesforce.com/id/00D/005");
                      ("token_type", JStr "Bearer");
                      ("issued_at", JStr "1700000000000");
                      ("signature", JStr "c2ln") ])
              (JObj [("id", JStr "001x"); ("success", JBool true); ("errors", JArr [])]))
    as (m' & Hrun & Htrace & _ & Hreuse); try reflexivity; try (simpl; lia).
  exists m'. split; [exact Hrun|]. split.
  - unfold token_calls. rewrite Htrace. reflexivity.
  - apply Hreuse. simpl. lia.
Defined.
